(** * Task agent backend: the tool registry and the chat dispatch loop

    A shallow embedding of [src/mcp/tools.py] (the task tools the language
    model may call) and of [chat_endpoint] in
    [src/api/v1/endpoints/agent.py], with the properties the specification
    states about them.

    Conventions of the embedding.
    - A Python [str] is a [string]; [Optional[str]] is [option string] with
      [None] for Python's [None].
    - The relational tables are lists of rows in insertion order; a query
      without [order_by] returns the rows in that order, [order_by] is a
      stable sort of them.
    - Code that raises returns [inl e]; the database session of a call that
      raises commits nothing.
    - What the program takes from its libraries and its environment (UUID
      parsing and printing, [uuid4], the clock, [json.loads], the remote
      model) is a field of the record [Env]. *)

From Stdlib Require Import ZArith NArith PeanoNat List String Ascii Bool Lia.
From Stdlib Require Import Sorted Permutation DecimalString.
From Stdlib Require Import Floats.SpecFloat.
Import ListNotations.

Local Open Scope list_scope.
Local Open Scope string_scope.
Local Open Scope nat_scope.

(** ** Python primitives *)

Module Py.

(** [bool(s)] for an [Optional[str]]: [None] and the empty string are
    falsy. *)
Definition truthy (s : option string) : bool :=
  match s with
  | None => false
  | Some s => negb (String.eqb s "")
  end.

(** [x or d] for an [Optional[str]] [x]. *)
Definition or_else (x : option string) (d : string) : string :=
  if truthy x then match x with Some s => s | None => d end else d.

(** [str(n)] for a non-negative [int]. *)
Definition str_of_nat (n : nat) : string :=
  NilEmpty.string_of_uint (Nat.to_uint n).

Fixpoint repeat_char (c : ascii) (n : nat) : string :=
  match n with
  | O => EmptyString
  | S k => String c (repeat_char c k)
  end.

(** ["%0wd" % n]. *)
Definition zfill (w : nat) (n : nat) : string :=
  let s := str_of_nat n in
  repeat_char "0"%char (w - String.length s) ++ s.

Definition upper_char (c : ascii) : ascii :=
  let n := nat_of_ascii c in
  if (97 <=? n) && (n <=? 122) then ascii_of_nat (n - 32) else c.

(** [s.upper()] on ASCII text (the priorities are ASCII words); other
    characters are kept. *)
Fixpoint upper (s : string) : string :=
  match s with
  | EmptyString => EmptyString
  | String c r => String (upper_char c) (upper r)
  end.

(** [sep.join(l)]. *)
Fixpoint join (sep : string) (l : list string) : string :=
  match l with
  | [] => ""
  | [x] => x
  | x :: r => x ++ sep ++ join sep r
  end.

(** [enumerate(l, start)]. *)
Fixpoint enumerate {A : Type} (start : nat) (l : list A) : list (nat * A) :=
  match l with
  | [] => []
  | x :: r => (start, x) :: enumerate (S start) r
  end.

(** The line feed of ["\n"]. *)
Definition nl : string := String (ascii_of_nat 10) EmptyString.

(** [s[:n]]. *)
Definition prefix (n : nat) (s : string) : string := substring 0 n s.

End Py.

(** ** [datetime] *)

Module Datetime.

Record datetime : Type := mk_datetime
  { year : nat; month : nat; day : nat;
    hour : nat; minute : nat; second : nat; microsecond : nat }.

Definition is_leap (y : nat) : bool :=
  ((y mod 4 =? 0) && negb (y mod 100 =? 0)) || (y mod 400 =? 0).

Definition days_in_month (y m : nat) : nat :=
  match m with
  | 2 => if is_leap y then 29 else 28
  | 4 | 6 | 9 | 11 => 30
  | _ => 31
  end.

Definition is_digit (c : ascii) : bool :=
  let n := nat_of_ascii c in (48 <=? n) && (n <=? 57).

Definition digit (c : ascii) : nat := nat_of_ascii c - 48.

Definition in_range (lo hi : nat) (c : ascii) : bool :=
  let n := nat_of_ascii c in (48 + lo <=? n) && (n <=? 48 + hi).

Definition is_dash (c : ascii) : bool := Ascii.eqb c "-"%char.

(** The directive [%Y] followed by the literal [-]: four digits and a
    dash. *)
Definition match_year (s : string) : option (nat * string) :=
  match s with
  | String a (String b (String c (String d (String e r)))) =>
      if is_digit a && is_digit b && is_digit c && is_digit d && is_dash e
      then Some (1000 * digit a + 100 * digit b + 10 * digit c + digit d, r)
      else None
  | _ => None
  end.

(** The directive [%m], [1[0-2]|0[1-9]|[1-9]], followed by the literal
    [-]; the alternatives are tried in this order, each with the dash
    after it. *)
Definition match_month (s : string) : option (nat * string) :=
  let alt3 :=
    match s with
    | String a (String e r) =>
        if in_range 1 9 a && is_dash e then Some (digit a, r) else None
    | _ => None
    end in
  match s with
  | String a (String b (String e r)) =>
      if Ascii.eqb a "1"%char && in_range 0 2 b && is_dash e
      then Some (10 + digit b, r)
      else if Ascii.eqb a "0"%char && in_range 1 9 b && is_dash e
      then Some (digit b, r)
      else alt3
  | _ => alt3
  end.

(** The directive [%d], [3[0-1]|[1-2]\d|0[1-9]|[1-9]| [1-9]], at the end
    of the format: the first alternative that matches is taken. *)
Definition match_day (s : string) : option (nat * string) :=
  let alt4 :=
    match s with
    | String a r => if in_range 1 9 a then Some (digit a, r) else None
    | _ => None
    end in
  match s with
  | String a (String b r) =>
      if Ascii.eqb a "3"%char && in_range 0 1 b then Some (30 + digit b, r)
      else if in_range 1 2 a && is_digit b then Some (10 * digit a + digit b, r)
      else if Ascii.eqb a "0"%char && in_range 1 9 b then Some (digit b, r)
      else if in_range 1 9 a then Some (digit a, String b r)
      else if Ascii.eqb a " "%char && in_range 1 9 b then Some (digit b, r)
      else None
  | _ => alt4
  end.

(** [datetime.strptime(s, "%Y-%m-%d")]; [None] when it raises
    [ValueError]: the text does not match, text remains after the match,
    the year is 0 or the day is not in the month. *)
Definition strptime_ymd (s : string) : option datetime :=
  match match_year s with
  | None => None
  | Some (y, r1) =>
      match match_month r1 with
      | None => None
      | Some (m, r2) =>
          match match_day r2 with
          | None => None
          | Some (d, r3) =>
              if String.eqb r3 "" && (1 <=? y) && (d <=? days_in_month y m)
              then Some (mk_datetime y m d 0 0 0 0)
              else None
          end
      end
  end.

(** [str(d.date())], that is [date.isoformat()]. *)
Definition date_str (d : datetime) : string :=
  Py.zfill 4 (year d) ++ "-" ++ Py.zfill 2 (month d) ++ "-" ++ Py.zfill 2 (day d).

Definition time_str (d : datetime) : string :=
  Py.zfill 2 (hour d) ++ ":" ++ Py.zfill 2 (minute d) ++ ":" ++ Py.zfill 2 (second d).

(** [d.isoformat()]. *)
Definition isoformat (d : datetime) : string :=
  date_str d ++ "T" ++ time_str d ++
  (if microsecond d =? 0 then "" else "." ++ Py.zfill 6 (microsecond d)).

(** [d.strftime('%Y-%m-%d %H:%M:%S')] (years of four digits). *)
Definition strftime_seconds (d : datetime) : string :=
  date_str d ++ " " ++ time_str d.

(** [d.strftime("%Y-%m-%d")]. *)
Definition strftime_date (d : datetime) : string := date_str d.

Definition fields (d : datetime) : list nat :=
  [year d; month d; day d; hour d; minute d; second d; microsecond d].

Fixpoint lex_leb (a b : list nat) : bool :=
  match a, b with
  | [], _ => true
  | _ :: _, [] => false
  | x :: a', y :: b' =>
      if x <? y then true else if y <? x then false else lex_leb a' b'
  end.

(** [a <= b] on datetimes. *)
Definition leb (a b : datetime) : bool := lex_leb (fields a) (fields b).

End Datetime.

(** ** [float] arithmetic (IEEE 754 binary64) *)

Module PyFloat.

Definition prec : Z := 53.
Definition emax : Z := 1024.

(** [float(n)] for an [int] [n]. *)
Definition of_int (n : Z) : spec_float := binary_normalize prec emax n 0 false.

(** [a / b] on floats. *)
Definition div (a b : spec_float) : spec_float := SFdiv prec emax a b.

(** [a * b] on floats. *)
Definition mul (a b : spec_float) : spec_float := SFmul prec emax a b.

Definition magnitude (m : positive) (e : Z) : Z :=
  match e with
  | Z0 => Zpos m
  | Zpos p => (Zpos m * Z.pow_pos 2 p)%Z
  | Zneg p => (Zpos m / Z.pow_pos 2 p)%Z
  end.

(** [int(x)]: truncation toward zero; [None] where Python raises (on an
    infinity or a NaN). *)
Definition to_int (x : spec_float) : option Z :=
  match x with
  | S754_zero _ => Some 0%Z
  | S754_finite s m e =>
      Some (if s then (- magnitude m e)%Z else magnitude m e)
  | S754_infinity _ | S754_nan => None
  end.

(** [round(x)]: the nearest integer, ties to the even one. *)
Definition round (x : spec_float) : option Z :=
  match x with
  | S754_zero _ => Some 0%Z
  | S754_finite s m e =>
      let r :=
        match e with
        | Zneg p =>
            let q := (Zpos m / Z.pow_pos 2 p)%Z in
            let twice_rest := (2 * (Zpos m mod Z.pow_pos 2 p))%Z in
            match (twice_rest ?= Z.pow_pos 2 p)%Z with
            | Lt => q
            | Gt => (q + 1)%Z
            | Eq => if Z.even q then q else (q + 1)%Z
            end
        | _ => magnitude m e
        end in
      Some (if s then (- r)%Z else r)
  | S754_infinity _ | S754_nan => None
  end.

End PyFloat.

Import Datetime.

(** ** JSON values, exceptions *)

(** A [uuid.UUID], as its 128-bit integer. *)
Definition UUID : Type := N.

Set Warnings "-register-all".

(** The values the tools return ([dict]s of strings, numbers, booleans,
    [None], lists and [dict]s). *)
Inductive json : Type :=
| JNull
| JBool (b : bool)
| JInt (z : Z)
| JStr (s : string)
| JList (l : list json)
| JDict (d : list (string * json)).

Definition dict : Type := list (string * json).

(** [d.get(k)]. *)
Fixpoint dict_get (k : string) (d : dict) : option json :=
  match d with
  | [] => None
  | (k', v) :: r => if String.eqb k k' then Some v else dict_get k r
  end.

Inductive exn : Type :=
| ValueError (msg : string)
| TypeError (msg : string)
| HTTPException (status_code : nat) (detail : string)
| LibraryError (msg : string).

(** [str(e)]. *)
Definition str_exn (e : exn) : string :=
  match e with
  | ValueError m | TypeError m | LibraryError m => m
  | HTTPException c d => Py.str_of_nat c ++ ": " ++ d
  end.

(** ** The tables (src/models/task.py, src/models/chat.py) *)

Module Task.
Record t : Type := mk
  { id : UUID;
    user_id : string;
    title : string;
    description : option string;
    status : string;
    priority : string;
    due_date : option datetime;
    tags : option string;
    created_at : datetime;
    updated_at : datetime }.

Definition set_title (v : string) (x : t) : t :=
  mk (id x) (user_id x) v (description x) (status x) (priority x)
     (due_date x) (tags x) (created_at x) (updated_at x).
Definition set_description (v : option string) (x : t) : t :=
  mk (id x) (user_id x) (title x) v (status x) (priority x)
     (due_date x) (tags x) (created_at x) (updated_at x).
Definition set_status (v : string) (x : t) : t :=
  mk (id x) (user_id x) (title x) (description x) v (priority x)
     (due_date x) (tags x) (created_at x) (updated_at x).
Definition set_priority (v : string) (x : t) : t :=
  mk (id x) (user_id x) (title x) (description x) (status x) v
     (due_date x) (tags x) (created_at x) (updated_at x).
Definition set_due_date (v : option datetime) (x : t) : t :=
  mk (id x) (user_id x) (title x) (description x) (status x) (priority x)
     v (tags x) (created_at x) (updated_at x).
Definition set_tags (v : option string) (x : t) : t :=
  mk (id x) (user_id x) (title x) (description x) (status x) (priority x)
     (due_date x) v (created_at x) (updated_at x).
Definition set_updated_at (v : datetime) (x : t) : t :=
  mk (id x) (user_id x) (title x) (description x) (status x) (priority x)
     (due_date x) (tags x) (created_at x) v.
End Task.

Module Conversation.
Record t : Type := mk
  { id : UUID;
    user_id : UUID;
    title : string;
    created_at : datetime;
    updated_at : datetime }.
End Conversation.

Module ChatMessage.
Record t : Type := mk
  { id : UUID;
    conversation_id : UUID;
    role : string;
    content : string;
    timestamp : datetime;
    tool_call_id : option string }.
End ChatMessage.

(** The database, with the number of clock reads and of [uuid4] draws made
    so far. *)
Record World : Type := mk_World
  { tasks : list Task.t;
    conversations : list Conversation.t;
    chat_messages : list ChatMessage.t;
    ticks : nat;
    draws : nat }.

(** ** The remote model's messages *)

Record ToolCall : Type := mk_ToolCall
  { call_id : string;
    function_name : string;
    function_arguments : string }.

(** [completion.choices[0].message]. *)
Record AiMessage : Type := mk_AiMessage
  { ai_content : option string;
    tool_calls : list ToolCall }.

(** The entries of the list [messages] of [chat_endpoint]. *)
Inductive TranscriptMsg : Type :=
| SystemMsg (current_date : string)
| HistoryMsg (role content : string)
| AssistantToolMsg (m : AiMessage)
| ToolMsg (tool_call_id : string) (result : dict).

(** The decoded arguments of a tool call: TOOLS_SCHEMA declares every
    parameter a string. *)
Definition kwargs : Type := list (string * string).

(** ** The environment *)

Record Env : Type := mk_Env
  { (** [uuid.UUID(s)], [None] on [ValueError] *)
    uuid_parse : string -> option UUID;
    (** [str(u)] *)
    uuid_str : UUID -> string;
    (** the n-th value of [uuid.uuid4()] *)
    uuid4 : nat -> UUID;
    (** [datetime.utcnow()] at the n-th reading of the clock *)
    utcnow : nat -> datetime;
    (** [date.today()] at the n-th reading of the clock *)
    date_today : nat -> datetime;
    (** [json.loads] on the arguments of a tool call *)
    json_loads : string -> exn + kwargs;
    (** [client.chat.completions.create(..., tools=TOOLS_SCHEMA)] followed
        by [.choices[0].message] *)
    create_with_tools : list TranscriptMsg -> exn + AiMessage;
    (** [client.chat.completions.create(model, messages)] followed by
        [.choices[0].message.content] *)
    create_final : list TranscriptMsg -> exn + option string }.

(** ** State and exceptions *)

Definition M (A : Type) : Type := World -> (exn + A) * World.

Definition ret {A : Type} (a : A) : M A := fun w => (inr a, w).

Definition raise {A : Type} (e : exn) : M A := fun w => (inl e, w).

Definition bind {A B : Type} (m : M A) (k : A -> M B) : M B :=
  fun w =>
    match m w with
    | (inl e, w') => (inl e, w')
    | (inr a, w') => k a w'
    end.

Declare Scope m_scope.
Delimit Scope m_scope with M.
Notation "x <- m ;; k" := (bind m (fun x => k))
  (at level 100, m at next level, right associativity) : m_scope.
Notation "m ;;; k" := (bind m (fun _ => k))
  (at level 100, right associativity) : m_scope.

(** [try: m except Exception as e: h e]. *)
Definition try_except {A : Type} (m : M A) (h : exn -> M A) : M A :=
  fun w =>
    match m w with
    | (inl e, w') => h e w'
    | (inr a, w') => (inr a, w')
    end.

(** [datetime.utcnow()]. *)
Definition now (E : Env) : M datetime :=
  fun w => (inr (utcnow E (ticks w)),
            mk_World (tasks w) (conversations w) (chat_messages w)
                     (S (ticks w)) (draws w)).

(** [date.today()]. *)
Definition today (E : Env) : M datetime :=
  fun w => (inr (date_today E (ticks w)),
            mk_World (tasks w) (conversations w) (chat_messages w)
                     (S (ticks w)) (draws w)).

(** [uuid.uuid4()]. *)
Definition fresh_uuid (E : Env) : M UUID :=
  fun w => (inr (uuid4 E (draws w)),
            mk_World (tasks w) (conversations w) (chat_messages w)
                     (ticks w) (S (draws w))).

Definition get_tasks : M (list Task.t) := fun w => (inr (tasks w), w).

Definition put_tasks (l : list Task.t) : M unit :=
  fun w => (inr tt, mk_World l (conversations w) (chat_messages w)
                             (ticks w) (draws w)).

Definition get_conversations : M (list Conversation.t) :=
  fun w => (inr (conversations w), w).

Definition get_chat_messages : M (list ChatMessage.t) :=
  fun w => (inr (chat_messages w), w).

(** [session.add(c); session.commit()] for a new conversation. *)
Definition insert_conversation (c : Conversation.t) : M unit :=
  fun w => (inr tt, mk_World (tasks w) (conversations w ++ [c])%list
                             (chat_messages w) (ticks w) (draws w)).

(** [session.add(m); session.commit()] for a new message. *)
Definition insert_chat_message (m : ChatMessage.t) : M unit :=
  fun w => (inr tt, mk_World (tasks w) (conversations w)
                             (chat_messages w ++ [m])%list (ticks w) (draws w)).

(** ** Queries *)

Fixpoint insert_by {A : Type} (le : A -> A -> bool) (x : A) (l : list A) : list A :=
  match l with
  | [] => [x]
  | y :: r => if le x y then x :: y :: r else y :: insert_by le x r
  end.

(** [order_by]: a stable sort. *)
Definition sort_by {A : Type} (le : A -> A -> bool) (l : list A) : list A :=
  fold_right (insert_by le) [] l.

(** [Task.user_id == user_id]. *)
Definition owned_by (user_id : option string) (t : Task.t) : bool :=
  match user_id with
  | Some u => String.eqb (Task.user_id t) u
  | None => false
  end.

(** [Task.title == title]. *)
Definition titled (title : string) (t : Task.t) : bool :=
  String.eqb (Task.title t) title.

(** [.where(Task.user_id == user_id).where(Task.title == title)]. *)
Definition matching (user_id : option string) (title : string) (t : Task.t)
    : bool :=
  owned_by user_id t && titled title t.

Definition created_le (a b : Task.t) : bool :=
  Datetime.leb (Task.created_at a) (Task.created_at b).

Definition created_ge (a b : Task.t) : bool := created_le b a.

(** The rows an UPDATE or a DELETE of loaded objects touches. *)
Definition update_where (sel : Task.t -> bool) (f : Task.t -> Task.t)
    (l : list Task.t) : list Task.t :=
  map (fun r => if sel r then f r else r) l.

Definition delete_where (sel : Task.t -> bool) (l : list Task.t) : list Task.t :=
  filter (fun r => negb (sel r)) l.

(** ** The tools (src/mcp/tools.py) *)

Local Open Scope m_scope.

Definition missing_user : exn := ValueError "user_id is required".

Definition owner_string (user_id : option string) : string :=
  match user_id with Some u => u | None => "" end.

(** [parsed_date] of [add_task], and the date [update_task_by_title]
    assigns: [strptime] under [try ... except: pass], only for a truthy
    argument. *)
Definition parse_due_date (due_date : option string) : option datetime :=
  if Py.truthy due_date
  then match due_date with Some s => strptime_ymd s | None => None end
  else None.

Definition add_task (E : Env) (user_id : option string) (title : string)
    (description : option string) (priority : string)
    (due_date tags : option string) : M dict :=
  if negb (Py.truthy user_id) then raise missing_user else
  let parsed_date := parse_due_date due_date in
  i <- fresh_uuid E ;;
  c <- now E ;;
  u <- now E ;;
  let task := Task.mk i (owner_string user_id) title description "pending"
                      priority parsed_date tags c u in
  l <- get_tasks ;;
  put_tasks (l ++ [task])%list ;;;
  ret [ ("status", JStr "success");
        ("message", JStr ("Task '" ++ title ++ "' added."));
        ("task", JDict [ ("id", JStr (uuid_str E (Task.id task)));
                         ("title", JStr (Task.title task)) ]) ].

(** One entry of [task_list] in [list_tasks]. *)
Definition task_summary (E : Env) (t : Task.t) : json :=
  JDict [ ("id", JStr (uuid_str E (Task.id t)));
          ("title", JStr (Task.title t));
          ("priority", JStr (Task.priority t));
          ("status", JStr (Task.status t));
          ("due_date", match Task.due_date t with
                       | Some d => JStr (isoformat d)
                       | None => JNull
                       end);
          ("created_at", JStr (isoformat (Task.created_at t))) ].

Definition list_tasks (E : Env) (user_id : option string)
    (status : option string) : M dict :=
  if negb (Py.truthy user_id) then raise missing_user else
  l <- get_tasks ;;
  let query := filter (owned_by user_id) l in
  let query :=
    if Py.truthy status && negb (String.eqb (Py.or_else status "") "all")
    then filter (fun t => String.eqb (Task.status t) (Py.or_else status "")) query
    else query in
  let tasks := sort_by created_ge query in
  ret [ ("status", JStr "success");
        ("tasks", JList (map (task_summary E) tasks)) ].

(** One line of [duplicates_info] in [delete_task]. *)
Definition duplicate_info (E : Env) (it : nat * Task.t) : string :=
  let '(i, t) := it in
  let created_date := strftime_seconds (Task.created_at t) in
  let due_str := match Task.due_date t with
                 | Some d => " | Due: " ++ date_str d
                 | None => ""
                 end in
  Py.str_of_nat i ++ ". [" ++ Py.upper (Task.priority t) ++ "] Created: " ++
  created_date ++ due_str ++ " (ID: " ++ uuid_str E (Task.id t) ++ ")".

Definition error_result (message : string) : dict :=
  [ ("status", JStr "error"); ("message", JStr message) ].

Definition success_result (message : string) : dict :=
  [ ("status", JStr "success"); ("message", JStr message) ].

Definition find_task (i : UUID) (l : list Task.t) : option Task.t :=
  find (fun t => N.eqb (Task.id t) i) l.

(** The query of [delete_task] by title: the owner's tasks of that title,
    [order_by(Task.created_at)]. *)
Definition same_title_oldest_first (user_id : option string)
    (task_title : string) (l : list Task.t) : list Task.t :=
  sort_by created_le (filter (matching user_id task_title) l).

Definition delete_task (E : Env) (user_id task_title task_id : option string)
    : M dict :=
  if negb (Py.truthy user_id) then raise missing_user else
  if negb (Py.truthy task_title) && negb (Py.truthy task_id) then
    ret (error_result "Please provide either a task title or task ID.")
  else if Py.truthy task_id then
    let task_id := Py.or_else task_id "" in
    match uuid_parse E task_id with
    | None => ret (error_result "Invalid ID format.")
    | Some task_uuid =>
        l <- get_tasks ;;
        match find_task task_uuid l with
        | None => ret (error_result ("Task ID " ++ task_id ++ " not found."))
        | Some task =>
            if negb (String.eqb (Task.user_id task) (owner_string user_id))
            then ret (error_result ("Task ID " ++ task_id ++ " not found."))
            else
              let title_backup := Task.title task in
              put_tasks (delete_where (fun t => N.eqb (Task.id t) task_uuid) l) ;;;
              ret (success_result ("Task '" ++ title_backup ++ "' deleted."))
        end
    end
  else
    let task_title := Py.or_else task_title "" in
    l <- get_tasks ;;
    let tasks := same_title_oldest_first user_id task_title l in
    match tasks with
    | [] => ret (error_result ("Task '" ++ task_title ++ "' not found."))
    | [_] =>
        put_tasks (delete_where (matching user_id task_title) l) ;;;
        ret (success_result ("Task '" ++ task_title ++ "' deleted."))
    | _ =>
        let duplicates_info := map (duplicate_info E) (Py.enumerate 1 tasks) in
        let list_str := Py.join Py.nl duplicates_info in
        ret [ ("status", JStr "error");
              ("message",
               JStr ("I found multiple tasks named '" ++ task_title ++
                     "'. Which one?" ++ Py.nl ++ list_str ++ Py.nl ++ Py.nl ++
                     "You can say 'Delete number 1' or 'Delete the high priority one'."));
              ("requires_clarification", JBool true) ]
    end.

(** The assignments [if v: task.f = v] of [update_task_by_title]. *)
Definition patch_str (v : option string) (set : string -> Task.t -> Task.t)
    (t : Task.t) : Task.t :=
  if Py.truthy v then set (Py.or_else v "") t else t.

Definition patch_opt (v : option string)
    (set : option string -> Task.t -> Task.t) (t : Task.t) : Task.t :=
  if Py.truthy v then set v t else t.

Definition patch_due_date (due_date : option string) (t : Task.t) : Task.t :=
  match parse_due_date due_date with
  | Some d => Task.set_due_date (Some d) t
  | None => t
  end.

Definition apply_patch (new_title description priority status due_date tags
    : option string) (t : Task.t) : Task.t :=
  let t := patch_str new_title Task.set_title t in
  let t := patch_opt description Task.set_description t in
  let t := patch_str priority Task.set_priority t in
  let t := patch_str status Task.set_status t in
  let t := patch_opt tags Task.set_tags t in
  patch_due_date due_date t.

Definition update_task_by_title (E : Env) (user_id : option string)
    (current_title : string)
    (new_title description priority status due_date tags : option string)
    : M dict :=
  if negb (Py.truthy user_id) || String.eqb current_title "" then
    ret (error_result "Missing fields")
  else
    l <- get_tasks ;;
    let tasks := filter (matching user_id current_title) l in
    match tasks with
    | [] => ret (error_result "Task not found.")
    | [task] =>
        let task := apply_patch new_title description priority status
                                due_date tags task in
        n <- now E ;;
        let task := Task.set_updated_at n task in
        put_tasks (update_where (matching user_id current_title)
                                (fun _ => task) l) ;;;
        ret [ ("status", JStr "success");
              ("message", JStr ("Task '" ++ current_title ++ "' updated."));
              ("task", JDict [ ("title", JStr (Task.title task)) ]) ]
    | _ =>
        ret (error_result
               ("Found " ++ Py.str_of_nat (List.length tasks) ++ " tasks named '" ++
                current_title ++
                "'. Please rename them via ID first or delete the duplicates."))
    end.

(** [int((completed / total * 100) if total > 0 else 0)]; [None] where
    [int] raises. *)
Definition productivity_score (completed total : nat) : option Z :=
  if 0 <? total
  then PyFloat.to_int
         (PyFloat.mul
            (PyFloat.div (PyFloat.of_int (Z.of_nat completed))
                         (PyFloat.of_int (Z.of_nat total)))
            (PyFloat.of_int 100))
  else Some 0%Z.

Definition has_status (s : string) (t : Task.t) : bool :=
  String.eqb (Task.status t) s.

Definition get_analytics (E : Env) (user_id : option string) : M dict :=
  l <- get_tasks ;;
  let tasks := filter (owned_by user_id) l in
  let total := List.length tasks in
  let completed := List.length (filter (has_status "completed") tasks) in
  let pending := List.length (filter (has_status "pending") tasks) in
  match productivity_score completed total with
  | None => raise (ValueError "cannot convert float to integer")
  | Some score =>
      ret [ ("status", JStr "success");
            ("analytics",
             JDict [ ("tasks_total", JInt (Z.of_nat total));
                     ("tasks_completed", JInt (Z.of_nat completed));
                     ("tasks_pending", JInt (Z.of_nat pending));
                     ("productivity_score", JInt score) ]) ]
  end.

Definition delete_all_tasks (E : Env) (user_id : option string) : M dict :=
  l <- get_tasks ;;
  let tasks := filter (owned_by user_id) l in
  put_tasks (delete_where (owned_by user_id) l) ;;;
  ret (success_result ("Deleted " ++ Py.str_of_nat (List.length tasks) ++ " tasks.")).

Definition complete_all_tasks (E : Env) (user_id : option string) : M dict :=
  l <- get_tasks ;;
  put_tasks (update_where (owned_by user_id) (Task.set_status "completed") l) ;;;
  ret (success_result "All tasks marked completed.").

Definition mark_all_tasks_incomplete (E : Env) (user_id : option string) : M dict :=
  l <- get_tasks ;;
  put_tasks (update_where (owned_by user_id) (Task.set_status "pending") l) ;;;
  ret (success_result "All tasks marked pending.").

(** ** The chat endpoint (src/api/v1/endpoints/agent.py) *)

Module ChatRequest.
Record t : Type := mk
  { message : string;
    user_id : string;
    conversation_id : option string }.
End ChatRequest.

Module ChatResponse.
Record t : Type := mk
  { response : string;
    conversation_id : string;
    user_id : string;
    tool_calls_executed : bool;
    original_request : dict }.
End ChatResponse.

(** [args.get(k)]. *)
Fixpoint kw_get (k : string) (args : kwargs) : option string :=
  match args with
  | [] => None
  | (k', v) :: r => if String.eqb k k' then Some v else kw_get k r
  end.

(** [args[k] = v]. *)
Fixpoint kw_set (k v : string) (args : kwargs) : kwargs :=
  match args with
  | [] => [(k, v)]
  | (k', v') :: r =>
      if String.eqb k k' then (k, v) :: r else (k', v') :: kw_set k v r
  end.

(** The call of [f] with [args] unpacked as keyword arguments: a key that
    is no parameter of [f] raises [TypeError]. *)
Definition bind_kwargs (f : string) (params : list string) (args : kwargs)
    : M unit :=
  match find (fun kv => negb (existsb (String.eqb (fst kv)) params)) args with
  | Some (k, _) =>
      raise (TypeError (f ++ "() got an unexpected keyword argument '" ++ k ++ "'"))
  | None => ret tt
  end.

(** A parameter without default that [args] does not give raises
    [TypeError]. *)
Definition required (f k : string) (args : kwargs) : M string :=
  match kw_get k args with
  | Some v => ret v
  | None =>
      raise (TypeError (f ++ "() missing 1 required positional argument: '" ++ k ++ "'"))
  end.

(** The chain [if fname == ... elif ...] of [chat_endpoint]. *)
Definition call_tool (E : Env) (fname : string) (args : kwargs) : M dict :=
  let user_id := kw_get "user_id" args in
  if String.eqb fname "add_task" then
    bind_kwargs "add_task"
      ["user_id"; "title"; "description"; "priority"; "due_date"; "tags"] args ;;;
    title <- required "add_task" "title" args ;;
    add_task E user_id title (kw_get "description" args)
      (match kw_get "priority" args with Some p => p | None => "medium" end)
      (kw_get "due_date" args) (kw_get "tags" args)
  else if String.eqb fname "update_task" then
    bind_kwargs "update_task_by_title"
      ["user_id"; "current_title"; "new_title"; "description"; "priority";
       "status"; "due_date"; "tags"] args ;;;
    current_title <- required "update_task_by_title" "current_title" args ;;
    update_task_by_title E user_id current_title (kw_get "new_title" args)
      (kw_get "description" args) (kw_get "priority" args)
      (kw_get "status" args) (kw_get "due_date" args) (kw_get "tags" args)
  else if String.eqb fname "list_tasks" then
    bind_kwargs "list_tasks" ["user_id"; "status"] args ;;;
    list_tasks E user_id (kw_get "status" args)
  else if String.eqb fname "delete_task" then
    bind_kwargs "delete_task" ["user_id"; "task_title"; "task_id"] args ;;;
    delete_task E user_id (kw_get "task_title" args) (kw_get "task_id" args)
  else if String.eqb fname "delete_all_tasks" then
    bind_kwargs "delete_all_tasks" ["user_id"] args ;;;
    delete_all_tasks E user_id
  else if String.eqb fname "complete_all_tasks" then
    bind_kwargs "complete_all_tasks" ["user_id"] args ;;;
    complete_all_tasks E user_id
  else if String.eqb fname "mark_all_tasks_incomplete" then
    bind_kwargs "mark_all_tasks_incomplete" ["user_id"] args ;;;
    mark_all_tasks_incomplete E user_id
  else if String.eqb fname "get_analytics" then
    bind_kwargs "get_analytics" ["user_id"] args ;;;
    get_analytics E user_id
  else
    ret (error_result ("Tool " ++ fname ++ " not found")).

(** A call into a library that may raise. *)
Definition lift {A : Type} (r : exn + A) : M A :=
  match r with
  | inl e => raise e
  | inr a => ret a
  end.

(** The loop [for tool_call in ai_msg.tool_calls]. *)
Fixpoint run_tool_calls (E : Env) (user_id : string) (calls : list ToolCall)
    (messages : list TranscriptMsg) : M (list TranscriptMsg) :=
  match calls with
  | [] => ret messages
  | tool_call :: rest =>
      args <- lift (json_loads E (function_arguments tool_call)) ;;
      let args := kw_set "user_id" user_id args in
      result <- call_tool E (function_name tool_call) args ;;
      run_tool_calls E user_id rest
        (messages ++ [ToolMsg (call_id tool_call) result])%list
  end.

(** Step B, first half: the conversation the request names, when its id
    parses and [session.get] finds it. *)
Definition resolve_conversation (E : Env) (conversation_id : option string)
    (convs : list Conversation.t) : option UUID :=
  if Py.truthy conversation_id then
    match uuid_parse E (Py.or_else conversation_id "") with
    | Some conv_id =>
        if existsb (fun c => N.eqb (Conversation.id c) conv_id) convs
        then Some conv_id else None
    | None => None
    end
  else None.

(** [request.message[:30] + "..." if len(request.message) > 30 else
    request.message], then [or "New Chat"]. *)
Definition conversation_title (message : string) : string :=
  let title_text :=
    if 30 <? String.length message then Py.prefix 30 message ++ "..."
    else message in
  Py.or_else (Some title_text) "New Chat".

(** [ChatMessage(conversation_id, role, content, created_at=utcnow())],
    added and committed; the model has no field [created_at], its
    [timestamp] is read from the clock by the default factory. *)
Definition save_message (E : Env) (conv_id : UUID) (role content : string)
    : M unit :=
  _ <- now E ;;
  i <- fresh_uuid E ;;
  ts <- now E ;;
  insert_chat_message (ChatMessage.mk i conv_id role content ts None).

Definition timestamp_ge (a b : ChatMessage.t) : bool :=
  Datetime.leb (ChatMessage.timestamp b) (ChatMessage.timestamp a).

Definition is_dialogue_role (r : string) : bool :=
  String.eqb r "user" || String.eqb r "assistant".

(** Step D: the newest ten messages of the conversation, oldest first. *)
Definition load_history (conv_id : UUID) (l : list ChatMessage.t)
    : list TranscriptMsg :=
  let newest :=
    firstn 10 (sort_by timestamp_ge
                 (filter (fun m => N.eqb (ChatMessage.conversation_id m) conv_id) l)) in
  map (fun h => HistoryMsg (ChatMessage.role h) (ChatMessage.content h))
      (filter (fun h => is_dialogue_role (ChatMessage.role h)) (rev newest)).

(** Steps E and F: the body of the [try]. *)
Definition model_turn (E : Env) (user_id : string)
    (messages : list TranscriptMsg) : M (option string * bool) :=
  ai_msg <- lift (create_with_tools E messages) ;;
  match tool_calls ai_msg with
  | [] => ret (Some (Py.or_else (ai_content ai_msg) "Okay."), false)
  | calls =>
      messages <- run_tool_calls E user_id calls
                    (messages ++ [AssistantToolMsg ai_msg])%list ;;
      final_resp <- lift (create_final E messages) ;;
      ret (final_resp, true)
  end.

(** The [except Exception as e] of step E. *)
Definition fallback (e : exn) : M (option string * bool) :=
  ret (Some ("I encountered an error processing your request: " ++ str_exn e),
       false).

(** Steps B, C and D: the conversation of the turn, the user message
    written to it, and the transcript for the model. *)
Definition begin_turn (E : Env) (request : ChatRequest.t) (user_uuid : UUID)
    : M (UUID * list TranscriptMsg) :=
  let message := ChatRequest.message request in
  convs <- get_conversations ;;
  conv_id <-
    match resolve_conversation E (ChatRequest.conversation_id request) convs with
    | Some conv_id => ret conv_id
    | None =>
        i <- fresh_uuid E ;;
        c <- now E ;;
        u <- now E ;;
        insert_conversation
          (Conversation.mk i user_uuid (conversation_title message) c u) ;;;
        ret i
    end ;;
  save_message E conv_id "user" message ;;;
  d <- today E ;;
  stored <- get_chat_messages ;;
  ret (conv_id, SystemMsg (strftime_date d) :: load_history conv_id stored).

(** Steps G and H: the assistant message and the response. *)
Definition end_turn (E : Env) (request : ChatRequest.t) (conv_id : UUID)
    (r : option string * bool) : M ChatResponse.t :=
  let '(final_resp, tool_calls_executed) := r in
  save_message E conv_id "assistant" (Py.or_else final_resp "Processed.") ;;;
  ret (ChatResponse.mk (Py.or_else final_resp "Done.")
         (uuid_str E conv_id) (ChatRequest.user_id request) tool_calls_executed
         [("message", JStr (ChatRequest.message request))]).

Definition chat_endpoint (E : Env) (request : ChatRequest.t)
    : M ChatResponse.t :=
  let user_id := ChatRequest.user_id request in
  if String.eqb user_id "" then
    raise (HTTPException 400 "user_id is required")
  else
    match uuid_parse E user_id with
    | None => raise (HTTPException 400 "Invalid user_id format")
    | Some user_uuid =>
        cm <- begin_turn E request user_uuid ;;
        let '(conv_id, messages) := cm in
        r <- try_except (model_turn E user_id messages) fallback ;;
        end_turn E request conv_id r
    end.

(** ** The conversation endpoints (src/api/v1/endpoints/agent.py) *)

Module ConversationHistoryResponse.
Record t : Type := mk
  { id : string;
    title : string;
    created_at : datetime;
    updated_at : datetime }.
End ConversationHistoryResponse.

(** One entry of [messages] in a [ConversationDetailResponse]: the [dict]
    with the keys [id], [role], [content] and [timestamp]. *)
Module MessageEntry.
Record t : Type := mk
  { id : string;
    role : string;
    content : string;
    timestamp : datetime }.
End MessageEntry.

Module ConversationDetailResponse.
Record t : Type := mk
  { id : string;
    title : string;
    created_at : datetime;
    updated_at : datetime;
    messages : list MessageEntry.t }.
End ConversationDetailResponse.

Definition put_conversations (l : list Conversation.t) : M unit :=
  fun w => (inr tt, mk_World (tasks w) l (chat_messages w) (ticks w) (draws w)).

Definition put_chat_messages (l : list ChatMessage.t) : M unit :=
  fun w => (inr tt, mk_World (tasks w) (conversations w) l (ticks w) (draws w)).

(** [session.get(Conversation, conv_uuid)]. *)
Definition find_conversation (i : UUID) (l : list Conversation.t)
    : option Conversation.t :=
  find (fun c => N.eqb (Conversation.id c) i) l.

Definition updated_ge (a b : Conversation.t) : bool :=
  Datetime.leb (Conversation.updated_at b) (Conversation.updated_at a).

Definition timestamp_le (a b : ChatMessage.t) : bool :=
  Datetime.leb (ChatMessage.timestamp a) (ChatMessage.timestamp b).

Definition history_entry (E : Env) (c : Conversation.t)
    : ConversationHistoryResponse.t :=
  ConversationHistoryResponse.mk (uuid_str E (Conversation.id c))
    (Conversation.title c) (Conversation.created_at c)
    (Conversation.updated_at c).

Definition get_conversations_endpoint (E : Env) (user_id : string)
    : M (list ConversationHistoryResponse.t) :=
  if String.eqb user_id "" then raise (HTTPException 400 "user_id required")
  else
    match uuid_parse E user_id with
    | None => raise (ValueError "badly formed hexadecimal UUID string")
    | Some user_uuid =>
        convs <- get_conversations ;;
        ret (map (history_entry E)
               (sort_by updated_ge
                  (filter (fun c => N.eqb (Conversation.user_id c) user_uuid)
                          convs)))
    end.

(** The checks that open [get_conversation_detail] and
    [delete_conversation]: both ids parse, the conversation is stored and
    its owner prints as [user_id]. *)
Definition owned_conversation (E : Env) (conversation_id user_id : string)
    : M (UUID * Conversation.t) :=
  if String.eqb user_id "" then raise (HTTPException 400 "user_id required")
  else
    match uuid_parse E user_id, uuid_parse E conversation_id with
    | Some _, Some conv_uuid =>
        convs <- get_conversations ;;
        match find_conversation conv_uuid convs with
        | None => raise (HTTPException 404 "Not found")
        | Some conversation =>
            if negb (String.eqb (uuid_str E (Conversation.user_id conversation))
                                user_id)
            then raise (HTTPException 404 "Not found")
            else ret (conv_uuid, conversation)
        end
    | _, _ => raise (HTTPException 400 "Invalid ID")
    end.

Definition message_entry (E : Env) (m : ChatMessage.t) : MessageEntry.t :=
  MessageEntry.mk (uuid_str E (ChatMessage.id m)) (ChatMessage.role m)
    (ChatMessage.content m) (ChatMessage.timestamp m).

Definition in_conversation (conv_uuid : UUID) (m : ChatMessage.t) : bool :=
  N.eqb (ChatMessage.conversation_id m) conv_uuid.

Definition get_conversation_detail (E : Env) (conversation_id user_id : string)
    : M ConversationDetailResponse.t :=
  cc <- owned_conversation E conversation_id user_id ;;
  let '(conv_uuid, conversation) := cc in
  stored <- get_chat_messages ;;
  let messages := sort_by timestamp_le (filter (in_conversation conv_uuid) stored) in
  ret (ConversationDetailResponse.mk
         (uuid_str E (Conversation.id conversation))
         (Conversation.title conversation)
         (Conversation.created_at conversation)
         (Conversation.updated_at conversation)
         (map (message_entry E) messages)).

Definition delete_conversation (E : Env) (conversation_id user_id : string)
    : M dict :=
  cc <- owned_conversation E conversation_id user_id ;;
  let '(conv_uuid, conversation) := cc in
  stored <- get_chat_messages ;;
  put_chat_messages
    (filter (fun m => negb (in_conversation conv_uuid m)) stored) ;;;
  convs <- get_conversations ;;
  put_conversations
    (filter (fun c => negb (N.eqb (Conversation.id c) conv_uuid)) convs) ;;;
  ret [ ("message", JStr "Deleted") ].

(** ** A sample environment

    Identifiers are printed in decimal, the n-th [uuid4] is [n + 1], the
    clock advances by one second per reading from 2025-01-01T00:00:00, and
    tool arguments of the form [k=v] decode to the one pair. *)

Definition sample_uuid_parse (s : string) : option UUID :=
  if String.eqb s "" then None
  else option_map N.of_uint (NilEmpty.uint_of_string s).

Definition sample_uuid_str (u : UUID) : string :=
  NilEmpty.string_of_uint (N.to_uint u).

Definition sample_clock (n : nat) : datetime :=
  mk_datetime 2025 1 1 0 (n / 60) (n mod 60) 0.

Definition sample_json_loads (s : string) : exn + kwargs :=
  match index 0 "=" s with
  | Some i => inr [(substring 0 i s, substring (S i) (String.length s - S i) s)]
  | None =>
      if String.eqb s "{}" then inr []
      else inl (LibraryError "Expecting value: line 1 column 1 (char 0)")
  end.

Definition sample_env (first : list TranscriptMsg -> exn + AiMessage)
    (final : list TranscriptMsg -> exn + option string) : Env :=
  mk_Env sample_uuid_parse sample_uuid_str (fun n => N.of_nat (S n))
         sample_clock sample_clock sample_json_loads first final.

(** A remote model that cannot be reached. *)
Definition offline_env : Env :=
  sample_env (fun _ => inl (LibraryError "Connection error."))
             (fun _ => inl (LibraryError "Connection error.")).

Definition empty_world : World := mk_World [] [] [] 0 0.

(** The world after a run, whatever its result. *)
Definition exec {A : Type} (m : M A) (w : World) : World := snd (m w).

(** Two tasks of one title, then a third task, added by user ["7"]. *)
Definition milk_world : World :=
  exec (add_task offline_env (Some "7") "Walk" None "low" None None)
    (exec (add_task offline_env (Some "7") "Buy milk" None "high" None None)
       (exec (add_task offline_env (Some "7") "Buy milk" None "medium"
                (Some "2025-03-10") None)
          empty_world)).

(** Three tasks of user ["7"], two of them completed. *)
Definition two_of_three_world : World :=
  exec (update_task_by_title offline_env (Some "7") "Buy milk" None None None
          (Some "completed") None None)
    (exec (update_task_by_title offline_env (Some "7") "Walk" None None None
             (Some "completed") None None)
       (exec (add_task offline_env (Some "7") "Read" None "medium" None None)
          (exec (add_task offline_env (Some "7") "Walk" None "low" None None)
             (exec (add_task offline_env (Some "7") "Buy milk" None "high"
                      None None)
                empty_world)))).

(** Following the specification's words for the score of [get_analytics]:
    [round(completed/total*100)], or [0] when [total] is 0. *)
Definition rounded_score (completed total : nat) : option Z :=
  if 0 <? total
  then PyFloat.round
         (PyFloat.mul
            (PyFloat.div (PyFloat.of_int (Z.of_nat completed))
                         (PyFloat.of_int (Z.of_nat total)))
            (PyFloat.of_int 100))
  else Some 0%Z.

(** A world in which user 7 has one conversation, of id 1, holding one
    turn. *)
Definition one_conversation_world : World :=
  exec (chat_endpoint offline_env (ChatRequest.mk "hello" "7" None))
       empty_world.

(** * Properties *)

(** ** Sorting *)

Section Sorting.

Context {A : Type} (le : A -> A -> bool).

Hypothesis le_total : forall a b, le a b = false -> le b a = true.
Hypothesis le_trans :
  forall a b c, le a b = true -> le b c = true -> le a c = true.

Lemma insert_by_perm (x : A) (l : list A) :
  Permutation (x :: l) (insert_by le x l).
Proof.
  induction l as [|y r IH]; simpl.
  - apply Permutation_refl.
  - destruct (le x y).
    + apply Permutation_refl.
    + eapply perm_trans; [apply perm_swap|].
      apply perm_skip, IH.
Qed.

Lemma sort_by_perm (l : list A) : Permutation l (sort_by le l).
Proof.
  induction l as [|x r IH]; simpl.
  - constructor.
  - eapply perm_trans; [apply perm_skip, IH|].
    apply insert_by_perm.
Qed.

Lemma sort_by_length (l : list A) : List.length (sort_by le l) = List.length l.
Proof. symmetry. apply Permutation_length, sort_by_perm. Qed.

Lemma sort_by_In (x : A) (l : list A) : In x (sort_by le l) <-> In x l.
Proof.
  split; intro H.
  - eapply Permutation_in; [apply Permutation_sym, sort_by_perm|exact H].
  - eapply Permutation_in; [apply sort_by_perm|exact H].
Qed.

Lemma insert_by_sorted (x : A) (l : list A) :
  StronglySorted (fun a b => le a b = true) l ->
  StronglySorted (fun a b => le a b = true) (insert_by le x l).
Proof.
  induction l as [|y r IH]; simpl; intro Hs.
  - constructor; constructor.
  - inversion Hs as [|? ? Hr Hall]; subst.
    destruct (le x y) eqn:Hxy.
    + constructor; [exact Hs|].
      constructor; [exact Hxy|].
      rewrite Forall_forall in *. intros z Hz.
      eapply le_trans; [exact Hxy|apply Hall, Hz].
    + constructor; [apply IH, Hr|].
      rewrite Forall_forall in *. intros z Hz.
      apply (Permutation_in _ (Permutation_sym (insert_by_perm x r))) in Hz.
      destruct Hz as [<-|Hz]; [apply le_total, Hxy|apply Hall, Hz].
Qed.

Lemma sort_by_sorted (l : list A) :
  StronglySorted (fun a b => le a b = true) (sort_by le l).
Proof.
  induction l as [|x r IH]; simpl.
  - constructor.
  - apply insert_by_sorted, IH.
Qed.

End Sorting.

Lemma lex_leb_total (a b : list nat) :
  Datetime.lex_leb a b = false -> Datetime.lex_leb b a = true.
Proof.
  revert b. induction a as [|x a IH]; intros [|y b]; simpl; try congruence.
  destruct (x <? y) eqn:Hxy; [congruence|].
  destruct (y <? x) eqn:Hyx; [reflexivity|].
  apply IH.
Qed.

Lemma lex_leb_trans (a b c : list nat) :
  Datetime.lex_leb a b = true -> Datetime.lex_leb b c = true ->
  Datetime.lex_leb a c = true.
Proof.
  revert b c. induction a as [|x a IH]; intros [|y b] [|z c]; simpl;
    try congruence.
  destruct (x <? y) eqn:Hxy, (y <? x) eqn:Hyx, (y <? z) eqn:Hyz,
           (z <? y) eqn:Hzy, (x <? z) eqn:Hxz, (z <? x) eqn:Hzx;
    try congruence;
    rewrite ?Nat.ltb_lt, ?Nat.ltb_ge in *; try lia.
  apply IH.
Qed.

Lemma created_le_total (a b : Task.t) :
  created_le a b = false -> created_le b a = true.
Proof. apply lex_leb_total. Qed.

Lemma created_le_trans (a b c : Task.t) :
  created_le a b = true -> created_le b c = true -> created_le a c = true.
Proof. apply lex_leb_trans. Qed.

(** ** Truthiness *)

Lemma truthy_Some (s : string) : s <> "" -> Py.truthy (Some s) = true.
Proof.
  intro H. unfold Py.truthy.
  destruct (String.eqb_spec s ""); [contradiction|reflexivity].
Qed.

Lemma falsy_cases (v : option string) :
  Py.truthy v = false <-> v = None \/ v = Some "".
Proof.
  unfold Py.truthy. destruct v as [s|].
  - destruct (String.eqb_spec s ""); simpl; split; intro H;
      try subst; auto; try discriminate.
    destruct H as [H|H]; [discriminate|congruence].
  - split; auto.
Qed.

Lemma or_else_Some (s d : string) : s <> "" -> Py.or_else (Some s) d = s.
Proof. intro H. unfold Py.or_else. now rewrite truthy_Some. Qed.

Lemma enumerate_nth {A : Type} (l : list A) (s k : nat) :
  nth_error (Py.enumerate s l) k =
  option_map (fun x => (s + k, x)) (nth_error l k).
Proof.
  revert s k. induction l as [|x r IH]; intros s [|k]; simpl; try reflexivity.
  - now rewrite Nat.add_0_r.
  - rewrite IH. now rewrite Nat.add_succ_r.
Qed.

(** ** Ambiguous titles *)

(** C2. When the owner has two or more tasks of the given title,
    [delete_task] by title alone leaves the world as it was and answers
    with status error and [requires_clarification] true; its message lists
    the matching tasks by ascending creation time, the k-th line (from 0)
    carrying the number k+1, the priority, the creation time to the second,
    the due date when there is one, and the id. *)
Theorem delete_task_by_title_duplicates
    (E : Env) (uid task_title : string) (task_id : option string) (w : World) :
  uid <> "" -> task_title <> "" -> Py.truthy task_id = false ->
  2 <= List.length (filter (matching (Some uid) task_title) (tasks w)) ->
  let candidates := same_title_oldest_first (Some uid) task_title (tasks w) in
  let lines := map (duplicate_info E) (Py.enumerate 1 candidates) in
  delete_task E (Some uid) (Some task_title) task_id w =
    (inr [ ("status", JStr "error");
           ("message",
            JStr ("I found multiple tasks named '" ++ task_title ++
                  "'. Which one?" ++ Py.nl ++ Py.join Py.nl lines ++ Py.nl ++
                  Py.nl ++
                  "You can say 'Delete number 1' or 'Delete the high priority one'."));
           ("requires_clarification", JBool true) ], w)
  /\ Permutation (filter (matching (Some uid) task_title) (tasks w)) candidates
  /\ StronglySorted
       (fun a b => Datetime.leb (Task.created_at a) (Task.created_at b) = true)
       candidates
  /\ List.length lines =
     List.length (filter (matching (Some uid) task_title) (tasks w))
  /\ forall k t, nth_error candidates k = Some t ->
       nth_error lines k =
       Some (Py.str_of_nat (S k) ++ ". [" ++ Py.upper (Task.priority t) ++
             "] Created: " ++ strftime_seconds (Task.created_at t) ++
             match Task.due_date t with
             | Some d => " | Due: " ++ date_str d
             | None => ""
             end ++
             " (ID: " ++ uuid_str E (Task.id t) ++ ")").
Proof.
  intros Hu Ht Hid Hlen candidates lines.
  assert (Hcl : List.length candidates =
                List.length (filter (matching (Some uid) task_title) (tasks w)))
    by apply sort_by_length.
  split; [|split; [|split; [|split]]].
  - unfold delete_task.
    rewrite (truthy_Some uid Hu), (truthy_Some task_title Ht), Hid. simpl.
    rewrite (or_else_Some task_title "" Ht).
    unfold bind, get_tasks, ret. fold candidates.
    destruct candidates as [|a [|b r]] eqn:Hc; simpl in Hcl; try lia.
    reflexivity.
  - apply sort_by_perm.
  - apply (sort_by_sorted created_le created_le_total created_le_trans).
  - unfold lines. rewrite length_map.
    assert (Hen : forall (l : list Task.t) s,
               List.length (Py.enumerate s l) = List.length l).
    { induction l as [|x l IH]; intro s; simpl; [reflexivity|now rewrite IH]. }
    now rewrite Hen.
  - intros k t Hk. unfold lines.
    rewrite nth_error_map, enumerate_nth, Hk. reflexivity.
Qed.

Lemma delete_task_by_title_duplicates_witness :
  exists r,
    delete_task offline_env (Some "7") (Some "Buy milk") None milk_world =
      (inr r, milk_world)
    /\ dict_get "requires_clarification" r = Some (JBool true).
Proof.
  destruct (delete_task_by_title_duplicates offline_env "7" "Buy milk" None
              milk_world) as [H _].
  - discriminate.
  - discriminate.
  - reflexivity.
  - vm_compute. lia.
  - eexists. split; [exact H|reflexivity].
Defined.

(** C3. When the owner has two or more tasks of the title
    [current_title], [update_task_by_title] leaves the world as it was (no
    field of any task changes, [updated_at] included) and answers with
    status error and a message that gives the number of matching tasks. *)
Theorem update_task_duplicates_error
    (E : Env) (uid current_title : string)
    (new_title description priority status due_date tags : option string)
    (w : World) :
  uid <> "" -> current_title <> "" ->
  2 <= List.length (filter (matching (Some uid) current_title) (tasks w)) ->
  update_task_by_title E (Some uid) current_title new_title description
    priority status due_date tags w =
  (inr [ ("status", JStr "error");
         ("message",
          JStr ("Found " ++
                Py.str_of_nat
                  (List.length (filter (matching (Some uid) current_title) (tasks w))) ++
                " tasks named '" ++ current_title ++
                "'. Please rename them via ID first or delete the duplicates.")) ],
   w).
Proof.
  intros Hu Ht Hlen. unfold update_task_by_title.
  rewrite (truthy_Some uid Hu).
  destruct (String.eqb_spec current_title ""); [contradiction|]. simpl.
  unfold bind, get_tasks, ret.
  destruct (filter (matching (Some uid) current_title) (tasks w))
    as [|a [|b r]] eqn:Hf; simpl in Hlen; try lia.
  reflexivity.
Qed.

Lemma update_task_duplicates_error_witness :
  update_task_by_title offline_env (Some "7") "Buy milk" (Some "Buy oat milk")
    None (Some "low") None None None milk_world =
  (inr [ ("status", JStr "error");
         ("message",
          JStr "Found 2 tasks named 'Buy milk'. Please rename them via ID first or delete the duplicates.") ],
   milk_world).
Proof.
  apply (update_task_duplicates_error offline_env "7" "Buy milk").
  - discriminate.
  - discriminate.
  - vm_compute. lia.
Defined.

(** C10. For a non-empty [user_id], [delete_task] given neither a title
    nor an id raises nothing, leaves the world as it was and answers with
    status error and a message asking for a title or an id. *)
Theorem delete_task_without_target
    (E : Env) (uid : string) (task_title task_id : option string) (w : World) :
  uid <> "" -> Py.truthy task_title = false -> Py.truthy task_id = false ->
  delete_task E (Some uid) task_title task_id w =
  (inr [ ("status", JStr "error");
         ("message", JStr "Please provide either a task title or task ID.") ],
   w).
Proof.
  intros Hu Ht Hid. unfold delete_task.
  rewrite (truthy_Some uid Hu), Ht, Hid. reflexivity.
Qed.

Lemma delete_task_without_target_witness :
  delete_task offline_env (Some "7") None (Some "") milk_world =
  (inr [ ("status", JStr "error");
         ("message", JStr "Please provide either a task title or task ID.") ],
   milk_world).
Proof.
  apply (delete_task_without_target offline_env "7" None (Some "") milk_world).
  - discriminate.
  - reflexivity.
  - reflexivity.
Defined.

(** ** A missing owner *)

(** C5, as the specification states it, fails: with an empty [user_id]
    [add_task] returns no result at all. *)
Lemma add_task_missing_owner_no_result :
  ~ (exists r w',
        add_task offline_env (Some "") "Buy milk" None "medium" None None
          empty_world = (inr r, w')
        /\ dict_get "status" r = Some (JStr "error")).
Proof.
  intros (r & w' & H & _). vm_compute in H. discriminate H.
Qed.

(** C5, amended. With a missing owner ([None] or the empty string)
    [add_task] raises [ValueError("user_id is required")] and leaves the
    world as it was. *)
Theorem add_task_missing_owner_raises
    (E : Env) (user_id : option string) (title : string)
    (description : option string) (priority : string)
    (due_date tags : option string) (w : World) :
  Py.truthy user_id = false ->
  add_task E user_id title description priority due_date tags w =
  (inl (ValueError "user_id is required"), w).
Proof.
  intro H. unfold add_task. rewrite H. reflexivity.
Qed.

Lemma add_task_missing_owner_raises_witness :
  add_task offline_env None "Buy milk" None "medium" None None milk_world =
  (inl (ValueError "user_id is required"), milk_world).
Proof.
  apply (add_task_missing_owner_raises offline_env None). reflexivity.
Defined.

(** ** Analytics *)

Lemma get_analytics_pure (E : Env) (user_id : option string) (w : World) :
  snd (get_analytics E user_id w) = w.
Proof.
  unfold get_analytics, bind, get_tasks.
  destruct (productivity_score _ _); reflexivity.
Qed.

(** An owner without tasks has score 0, and nothing is raised. *)
Lemma get_analytics_no_tasks (E : Env) (user_id : option string) (w : World) :
  filter (owned_by user_id) (tasks w) = [] ->
  get_analytics E user_id w =
  (inr [ ("status", JStr "success");
         ("analytics",
          JDict [ ("tasks_total", JInt 0); ("tasks_completed", JInt 0);
                  ("tasks_pending", JInt 0); ("productivity_score", JInt 0) ]) ],
   w).
Proof.
  intro H. unfold get_analytics, bind, get_tasks. rewrite H. reflexivity.
Qed.

(** C6. With two of three tasks completed [get_analytics] reports the
    score 66, the truncation of 66.66..., where rounding gives 67. *)
Theorem get_analytics_truncates :
  get_analytics offline_env (Some "7") two_of_three_world =
  (inr [ ("status", JStr "success");
         ("analytics",
          JDict [ ("tasks_total", JInt 3); ("tasks_completed", JInt 2);
                  ("tasks_pending", JInt 1); ("productivity_score", JInt 66) ]) ],
   two_of_three_world)
  /\ rounded_score 2 3 = Some 67%Z.
Proof. split; vm_compute; reflexivity. Qed.

(** ** Bulk completion *)

(** C7. [complete_all_tasks] sets the status of every task of the owner
    to completed and leaves every [updated_at] as it was: the timestamp is
    not refreshed, and the clock is not even read. *)
Theorem complete_all_tasks_keeps_updated_at
    (E : Env) (user_id : option string) (w : World) :
  exists w',
    complete_all_tasks E user_id w =
      (inr [ ("status", JStr "success");
             ("message", JStr "All tasks marked completed.") ], w')
    /\ (forall t, In t (tasks w') -> owned_by user_id t = true ->
                  Task.status t = "completed")
    /\ map Task.updated_at (tasks w') = map Task.updated_at (tasks w)
    /\ ticks w' = ticks w.
Proof.
  eexists. split; [reflexivity|]. simpl. split; [|split; [|reflexivity]].
  - intros t Hin Hown. unfold update_where in Hin.
    apply in_map_iff in Hin. destruct Hin as (r & Hr & _).
    destruct (owned_by user_id r) eqn:Hor; subst t; [reflexivity|].
    congruence.
  - unfold update_where. rewrite map_map.
    apply map_ext. intro r. now destruct (owned_by user_id r).
Qed.

(** On the three pending tasks of [milk_world], written at the clock
    readings 1, 3 and 5: all three end completed, and their [updated_at]
    still read 1, 3 and 5 seconds. *)
Lemma complete_all_tasks_milk_world :
  let w' := exec (complete_all_tasks offline_env (Some "7")) milk_world in
  map Task.status (tasks w') = ["completed"; "completed"; "completed"]
  /\ map (fun t => second (Task.updated_at t)) (tasks w') = [1; 3; 5]
  /\ ticks w' = 6.
Proof. vm_compute. repeat split. Qed.

(** ** Due dates *)

(** C8, as the specification states it, fails: a task added with the due
    date "2025-03-10" is not listed with the due date "2025-03-10". *)
Lemma due_date_round_trip_fails :
  ~ (exists r w' summaries d,
        list_tasks offline_env (Some "7") None
          (exec (add_task offline_env (Some "7") "Buy milk" None "medium"
                   (Some "2025-03-10") None) empty_world) = (inr r, w')
        /\ dict_get "tasks" r = Some (JList summaries)
        /\ In (JDict d) summaries
        /\ dict_get "due_date" d = Some (JStr "2025-03-10")).
Proof.
  intros (r & w' & summaries & d & H & Hs & Hin & Hd).
  vm_compute in H. inversion H; subst; clear H.
  simpl in Hs. inversion Hs; subst; clear Hs.
  destruct Hin as [Heq|[]]. inversion Heq; subst; clear Heq.
  vm_compute in Hd. discriminate Hd.
Qed.

(** C8, amended. A task added with the due date "2025-03-10" is stored
    with the datetime 2025-03-10 00:00:00, and [list_tasks] shows it with
    the due date "2025-03-10T00:00:00". *)
Theorem due_date_lists_as_iso_datetime
    (E : Env) (uid title : string) (description : option string)
    (priority : string) (tags : option string) (w : World) :
  uid <> "" ->
  exists r task w1 summaries,
    add_task E (Some uid) title description priority (Some "2025-03-10") tags w
      = (inr r, w1)
    /\ tasks w1 = (tasks w ++ [task])%list
    /\ Task.due_date task = Some (mk_datetime 2025 3 10 0 0 0 0)
    /\ list_tasks E (Some uid) None w1 =
         (inr [ ("status", JStr "success"); ("tasks", JList summaries) ], w1)
    /\ In (JDict [ ("id", JStr (uuid_str E (Task.id task)));
                   ("title", JStr title);
                   ("priority", JStr priority);
                   ("status", JStr "pending");
                   ("due_date", JStr "2025-03-10T00:00:00");
                   ("created_at", JStr (isoformat (Task.created_at task))) ])
          summaries.
Proof.
  intro Hu. unfold add_task. rewrite (truthy_Some uid Hu). simpl negb. cbv iota.
  unfold bind, fresh_uuid, now, get_tasks, put_tasks, ret. simpl.
  do 4 eexists. split; [reflexivity|]. simpl.
  split; [reflexivity|]. split; [reflexivity|].
  unfold list_tasks. rewrite (truthy_Some uid Hu). simpl.
  unfold bind, get_tasks, ret. simpl. split; [reflexivity|].
  apply in_map_iff.
  eexists. split.
  2:{ apply sort_by_In. apply filter_In. split.
      - apply in_or_app. right. left. reflexivity.
      - simpl. apply String.eqb_refl. }
  reflexivity.
Qed.

Lemma due_date_lists_as_iso_datetime_witness :
  exists r task w1 summaries,
    add_task offline_env (Some "7") "Buy milk" None "medium"
      (Some "2025-03-10") None empty_world = (inr r, w1)
    /\ tasks w1 = [task]
    /\ list_tasks offline_env (Some "7") None w1 =
         (inr [ ("status", JStr "success"); ("tasks", JList summaries) ], w1)
    /\ In (JDict [ ("id", JStr "1"); ("title", JStr "Buy milk");
                   ("priority", JStr "medium"); ("status", JStr "pending");
                   ("due_date", JStr "2025-03-10T00:00:00");
                   ("created_at", JStr (isoformat (Task.created_at task))) ])
          summaries.
Proof.
  destruct (due_date_lists_as_iso_datetime offline_env "7" "Buy milk" None
              "medium" None empty_world)
    as (r & task & w1 & summaries & Ha & Ht & _ & Hl & Hin).
  - discriminate.
  - exists r, task, w1, summaries.
    assert (Hid : Task.id task = 1%N).
    { vm_compute in Ha. inversion Ha; subst. simpl in Ht.
      inversion Ht; subst. reflexivity. }
    rewrite Hid in Hin. repeat split; assumption.
Defined.

(** ** Patching one task *)

Lemma parse_due_date_falsy (due_date : option string) :
  Py.truthy due_date = false -> parse_due_date due_date = None.
Proof. intro H. unfold parse_due_date. now rewrite H. Qed.

Ltac split_patch :=
  unfold apply_patch, patch_str, patch_opt, patch_due_date;
  repeat match goal with
         | |- context [Py.truthy ?v] => destruct (Py.truthy v) eqn:?
         | |- context [parse_due_date ?v] => destruct (parse_due_date v) eqn:?
         end;
  simpl.

(** What [apply_patch] keeps whatever the patch: the identity, the owner
    and the timestamps. *)
Lemma apply_patch_frame
    (new_title description priority status due_date tags : option string)
    (t : Task.t) :
  let t' := apply_patch new_title description priority status due_date tags t in
  Task.id t' = Task.id t /\ Task.user_id t' = Task.user_id t
  /\ Task.created_at t' = Task.created_at t
  /\ Task.updated_at t' = Task.updated_at t.
Proof. split_patch; repeat split. Qed.

(** A field whose patch is [None] or empty keeps its value. *)
Lemma apply_patch_ignores_falsy
    (new_title description priority status due_date tags : option string)
    (t : Task.t) :
  let t' := apply_patch new_title description priority status due_date tags t in
  (Py.truthy new_title = false -> Task.title t' = Task.title t)
  /\ (Py.truthy description = false -> Task.description t' = Task.description t)
  /\ (Py.truthy priority = false -> Task.priority t' = Task.priority t)
  /\ (Py.truthy status = false -> Task.status t' = Task.status t)
  /\ (Py.truthy tags = false -> Task.tags t' = Task.tags t)
  /\ (Py.truthy due_date = false -> Task.due_date t' = Task.due_date t).
Proof.
  cbv zeta. repeat split; intro H.
  6: apply parse_due_date_falsy in H.
  all: unfold apply_patch, patch_str, patch_opt, patch_due_date; rewrite H;
    repeat match goal with
           | |- context [Py.truthy ?v] => destruct (Py.truthy v)
           | |- context [parse_due_date ?v] => destruct (parse_due_date v)
           end; reflexivity.
Qed.

Lemma truthy_or_else (v : option string) :
  Py.truthy v = true -> v = Some (Py.or_else v "").
Proof.
  destruct v as [s|]; intro Hv; [|discriminate].
  unfold Py.or_else. now rewrite Hv.
Qed.

Lemma parse_due_date_Some (due_date : option string) (d : datetime) :
  parse_due_date due_date = Some d ->
  Py.truthy due_date = true /\
  exists s, due_date = Some s /\ strptime_ymd s = Some d.
Proof.
  unfold parse_due_date. destruct (Py.truthy due_date); [|discriminate].
  destruct due_date as [s|]; [|discriminate].
  intro H. split; [reflexivity|]. now exists s.
Qed.

(** A field that changes was given a non-empty value, and holds it. *)
Lemma apply_patch_writes_truthy
    (new_title description priority status due_date tags : option string)
    (t : Task.t) :
  let t' := apply_patch new_title description priority status due_date tags t in
  (Task.title t' <> Task.title t ->
     Py.truthy new_title = true /\ new_title = Some (Task.title t'))
  /\ (Task.description t' <> Task.description t ->
     Py.truthy description = true /\ description = Task.description t')
  /\ (Task.priority t' <> Task.priority t ->
     Py.truthy priority = true /\ priority = Some (Task.priority t'))
  /\ (Task.status t' <> Task.status t ->
     Py.truthy status = true /\ status = Some (Task.status t'))
  /\ (Task.tags t' <> Task.tags t ->
     Py.truthy tags = true /\ tags = Task.tags t')
  /\ (Task.due_date t' <> Task.due_date t ->
     Py.truthy due_date = true /\
     exists s, due_date = Some s /\ Task.due_date t' = strptime_ymd s).
Proof.
  cbv zeta.
  unfold apply_patch, patch_str, patch_opt, patch_due_date.
  destruct (parse_due_date due_date) as [d|] eqn:Hd.
  1: destruct (parse_due_date_Some _ _ Hd) as (Htd & s & Hs & Hp).
  all: destruct (Py.truthy new_title) eqn:H1, (Py.truthy description) eqn:H2,
         (Py.truthy priority) eqn:H3, (Py.truthy status) eqn:H4,
         (Py.truthy tags) eqn:H5; simpl.
  all: repeat match goal with |- _ /\ _ => split end; intro H;
         try (exfalso; apply H; reflexivity).
  all: try (split; [reflexivity|]).
  all: try (now apply truthy_or_else).
  all: try reflexivity.
  all: split; [exact Htd|exists s; split; [exact Hs|now rewrite Hp]].
Qed.

Lemma truthy_or_else_nonempty (v : option string) :
  Py.truthy v = true -> Py.or_else v "" <> "".
Proof.
  destruct v as [s|]; intro Hv; [|discriminate].
  unfold Py.or_else. rewrite Hv. unfold Py.truthy in Hv.
  destruct (String.eqb_spec s ""); [discriminate|assumption].
Qed.

(** No field that holds a value is cleared. *)
Lemma apply_patch_clears_nothing
    (new_title description priority status due_date tags : option string)
    (t : Task.t) :
  let t' := apply_patch new_title description priority status due_date tags t in
  (Task.title t <> "" -> Task.title t' <> "")
  /\ (Py.truthy (Task.description t) = true ->
      Py.truthy (Task.description t') = true)
  /\ (Task.priority t <> "" -> Task.priority t' <> "")
  /\ (Task.status t <> "" -> Task.status t' <> "")
  /\ (Py.truthy (Task.tags t) = true -> Py.truthy (Task.tags t') = true)
  /\ (Task.due_date t <> None -> Task.due_date t' <> None).
Proof.
  cbv zeta.
  unfold apply_patch, patch_str, patch_opt, patch_due_date.
  destruct (parse_due_date due_date) as [d|] eqn:Hd.
  all: destruct (Py.truthy new_title) eqn:H1, (Py.truthy description) eqn:H2,
         (Py.truthy priority) eqn:H3, (Py.truthy status) eqn:H4,
         (Py.truthy tags) eqn:H5; simpl.
  all: repeat match goal with |- _ /\ _ => split end; intro H;
         try assumption; try discriminate;
         try (now apply truthy_or_else_nonempty).
Qed.

(** C9. When exactly one task of the owner has the title
    [current_title], [update_task_by_title] succeeds and rewrites that row
    so that: a field whose patch is [None] or the empty string keeps its
    value; a field that changes was given a non-empty value (and, for the
    due date, one that parses) and now holds it; and no field that held a
    value is left empty or [None]. *)
Theorem update_task_ignores_empty_fields
    (E : Env) (uid current_title : string)
    (new_title description priority status due_date tags : option string)
    (w : World) (task : Task.t) :
  uid <> "" -> current_title <> "" ->
  filter (matching (Some uid) current_title) (tasks w) = [task] ->
  exists task' w',
    update_task_by_title E (Some uid) current_title new_title description
      priority status due_date tags w =
    (inr [ ("status", JStr "success");
           ("message", JStr ("Task '" ++ current_title ++ "' updated."));
           ("task", JDict [ ("title", JStr (Task.title task')) ]) ], w')
    /\ tasks w' =
       update_where (matching (Some uid) current_title) (fun _ => task') (tasks w)
    /\ ((Py.truthy new_title = false -> Task.title task' = Task.title task)
        /\ (Py.truthy description = false ->
            Task.description task' = Task.description task)
        /\ (Py.truthy priority = false -> Task.priority task' = Task.priority task)
        /\ (Py.truthy status = false -> Task.status task' = Task.status task)
        /\ (Py.truthy tags = false -> Task.tags task' = Task.tags task)
        /\ (Py.truthy due_date = false ->
            Task.due_date task' = Task.due_date task))
    /\ ((Task.title task' <> Task.title task ->
           Py.truthy new_title = true /\ new_title = Some (Task.title task'))
        /\ (Task.description task' <> Task.description task ->
           Py.truthy description = true /\ description = Task.description task')
        /\ (Task.priority task' <> Task.priority task ->
           Py.truthy priority = true /\ priority = Some (Task.priority task'))
        /\ (Task.status task' <> Task.status task ->
           Py.truthy status = true /\ status = Some (Task.status task'))
        /\ (Task.tags task' <> Task.tags task ->
           Py.truthy tags = true /\ tags = Task.tags task')
        /\ (Task.due_date task' <> Task.due_date task ->
           Py.truthy due_date = true /\
           exists s, due_date = Some s /\ Task.due_date task' = strptime_ymd s))
    /\ ((Task.title task <> "" -> Task.title task' <> "")
        /\ (Py.truthy (Task.description task) = true ->
            Py.truthy (Task.description task') = true)
        /\ (Task.priority task <> "" -> Task.priority task' <> "")
        /\ (Task.status task <> "" -> Task.status task' <> "")
        /\ (Py.truthy (Task.tags task) = true ->
            Py.truthy (Task.tags task') = true)
        /\ (Task.due_date task <> None -> Task.due_date task' <> None)).
Proof.
  intros Hu Ht Hf.
  exists (Task.set_updated_at (utcnow E (ticks w))
            (apply_patch new_title description priority status due_date tags task)).
  unfold update_task_by_title.
  rewrite (truthy_Some uid Hu).
  destruct (String.eqb_spec current_title ""); [contradiction|]. simpl.
  unfold bind, get_tasks. rewrite Hf.
  unfold now, put_tasks, ret. simpl.
  eexists. split; [reflexivity|]. simpl. split; [reflexivity|].
  split; [|split].
  - exact (apply_patch_ignores_falsy new_title description priority status
             due_date tags task).
  - exact (apply_patch_writes_truthy new_title description priority status
             due_date tags task).
  - exact (apply_patch_clears_nothing new_title description priority status
             due_date tags task).
Qed.

Lemma update_task_ignores_empty_fields_witness :
  exists task' w',
    update_task_by_title offline_env (Some "7") "Walk" (Some "") None
      (Some "high") None (Some "") None milk_world =
    (inr [ ("status", JStr "success");
           ("message", JStr "Task 'Walk' updated.");
           ("task", JDict [ ("title", JStr (Task.title task')) ]) ], w')
    /\ Task.title task' = "Walk".
Proof.
  destruct (update_task_ignores_empty_fields offline_env "7" "Walk" (Some "")
              None (Some "high") None (Some "") None milk_world
              (Task.mk 3%N "7" "Walk" None "pending" "low" None None
                 (sample_clock 4) (sample_clock 5)))
    as (task' & w' & Hr & _ & (Hk & _) & _).
  - discriminate.
  - discriminate.
  - reflexivity.
  - exists task', w'. split; [exact Hr|]. apply Hk. reflexivity.
Defined.

(** ** The tools leave the conversations alone *)

(** A computation that changes neither the conversations nor the stored
    messages, whatever its result. *)
Definition keeps_chat {A : Type} (m : M A) : Prop :=
  forall w, conversations (snd (m w)) = conversations w
            /\ chat_messages (snd (m w)) = chat_messages w.

Lemma keeps_ret {A : Type} (a : A) : keeps_chat (ret a).
Proof. intro w. split; reflexivity. Qed.

Lemma keeps_raise {A : Type} (e : exn) : keeps_chat (@raise A e).
Proof. intro w. split; reflexivity. Qed.

Lemma keeps_lift {A : Type} (r : exn + A) : keeps_chat (lift r).
Proof. destruct r; [apply keeps_raise|apply keeps_ret]. Qed.

Lemma keeps_bind {A B : Type} (m : M A) (k : A -> M B) :
  keeps_chat m -> (forall a, keeps_chat (k a)) -> keeps_chat (bind m k).
Proof.
  intros Hm Hk w. unfold bind.
  specialize (Hm w). destruct (m w) as [[e|a] w1]; simpl in *.
  - exact Hm.
  - destruct (Hk a w1) as [H1 H2]. destruct Hm as [H3 H4].
    split; congruence.
Qed.

Lemma keeps_try_except {A : Type} (m : M A) (h : exn -> M A) :
  keeps_chat m -> (forall e, keeps_chat (h e)) -> keeps_chat (try_except m h).
Proof.
  intros Hm Hh w. unfold try_except.
  specialize (Hm w). destruct (m w) as [[e|a] w1]; simpl in *.
  - destruct (Hh e w1) as [H1 H2]. destruct Hm as [H3 H4].
    split; congruence.
  - exact Hm.
Qed.

Lemma keeps_now (E : Env) : keeps_chat (now E).
Proof. intro w. split; reflexivity. Qed.

Lemma keeps_fresh_uuid (E : Env) : keeps_chat (fresh_uuid E).
Proof. intro w. split; reflexivity. Qed.

Lemma keeps_get_tasks : keeps_chat get_tasks.
Proof. intro w. split; reflexivity. Qed.

Lemma keeps_put_tasks (l : list Task.t) : keeps_chat (put_tasks l).
Proof. intro w. split; reflexivity. Qed.

Create HintDb keeps.
#[local] Hint Resolve keeps_ret keeps_raise keeps_lift keeps_now
  keeps_fresh_uuid keeps_get_tasks keeps_put_tasks : keeps.

Ltac keeps_step :=
  match goal with
  | |- keeps_chat (bind _ _) => apply keeps_bind; [|intro]
  | |- keeps_chat (if ?b then _ else _) => destruct b
  | |- keeps_chat (match ?x with _ => _ end) => destruct x
  | |- keeps_chat _ => solve [auto with keeps]
  end.

Ltac keeps := repeat keeps_step.

Lemma keeps_add_task E user_id title description priority due_date tags :
  keeps_chat (add_task E user_id title description priority due_date tags).
Proof. unfold add_task. keeps. Qed.

Lemma keeps_list_tasks E user_id status : keeps_chat (list_tasks E user_id status).
Proof. unfold list_tasks. keeps. Qed.

Lemma keeps_delete_task E user_id task_title task_id :
  keeps_chat (delete_task E user_id task_title task_id).
Proof. unfold delete_task. keeps. Qed.

Lemma keeps_update_task_by_title E user_id current_title new_title
    description priority status due_date tags :
  keeps_chat (update_task_by_title E user_id current_title new_title
                description priority status due_date tags).
Proof. unfold update_task_by_title. keeps. Qed.

Lemma keeps_get_analytics E user_id : keeps_chat (get_analytics E user_id).
Proof. unfold get_analytics. keeps. Qed.

Lemma keeps_delete_all_tasks E user_id : keeps_chat (delete_all_tasks E user_id).
Proof. unfold delete_all_tasks. keeps. Qed.

Lemma keeps_complete_all_tasks E user_id :
  keeps_chat (complete_all_tasks E user_id).
Proof. unfold complete_all_tasks. keeps. Qed.

Lemma keeps_mark_all_tasks_incomplete E user_id :
  keeps_chat (mark_all_tasks_incomplete E user_id).
Proof. unfold mark_all_tasks_incomplete. keeps. Qed.

Lemma keeps_bind_kwargs f params args : keeps_chat (bind_kwargs f params args).
Proof. unfold bind_kwargs. keeps. Qed.

Lemma keeps_required f k args : keeps_chat (required f k args).
Proof. unfold required. keeps. Qed.

#[local] Hint Resolve keeps_add_task keeps_list_tasks keeps_delete_task
  keeps_update_task_by_title keeps_get_analytics keeps_delete_all_tasks
  keeps_complete_all_tasks keeps_mark_all_tasks_incomplete
  keeps_bind_kwargs keeps_required : keeps.

Lemma keeps_call_tool E fname args : keeps_chat (call_tool E fname args).
Proof. unfold call_tool. keeps. Qed.

Lemma keeps_run_tool_calls E user_id calls messages :
  keeps_chat (run_tool_calls E user_id calls messages).
Proof.
  revert messages. induction calls as [|tc rest IH]; intro messages; simpl.
  - apply keeps_ret.
  - apply keeps_bind; [apply keeps_lift|intro args].
    apply keeps_bind; [apply keeps_call_tool|intro result].
    apply IH.
Qed.

Lemma keeps_model_turn E user_id messages :
  keeps_chat (model_turn E user_id messages).
Proof.
  unfold model_turn.
  apply keeps_bind; [apply keeps_lift|intro ai_msg].
  destruct (tool_calls ai_msg); [apply keeps_ret|].
  apply keeps_bind; [apply keeps_run_tool_calls|intro ms].
  apply keeps_bind; [apply keeps_lift|intro r]. apply keeps_ret.
Qed.

(** The [try ... except] of the turn always yields a reply; when the body
    raises, the reply is the fall-back text and no tool call is reported. *)
Lemma guarded_model_turn (E : Env) (user_id : string)
    (messages : list TranscriptMsg) (w : World) :
  exists r w',
    try_except (model_turn E user_id messages) fallback w = (inr r, w')
    /\ conversations w' = conversations w
    /\ chat_messages w' = chat_messages w
    /\ forall e w2, model_turn E user_id messages w = (inl e, w2) ->
         r = (Some ("I encountered an error processing your request: " ++
                    str_exn e), false).
Proof.
  destruct (keeps_model_turn E user_id messages w) as [Hc Hm].
  unfold try_except.
  destruct (model_turn E user_id messages w) as [[e|r] w1]; simpl in *.
  - eexists. eexists. split; [reflexivity|]. split; [exact Hc|].
    split; [exact Hm|]. intros e' w2 H. now inversion H.
  - exists r, w1. split; [reflexivity|]. split; [exact Hc|].
    split; [exact Hm|]. intros e' w2 H. discriminate H.
Qed.

(** ** A chat turn *)

(** Steps B to D never fail: they settle the conversation and append the
    user's message to the stored messages. *)
Lemma begin_turn_writes_user (E : Env) (request : ChatRequest.t)
    (user_uuid : UUID) (w : World) :
  exists conv_id messages w1 m,
    begin_turn E request user_uuid w = (inr (conv_id, messages), w1)
    /\ chat_messages w1 = (chat_messages w ++ [m])%list
    /\ ChatMessage.role m = "user"
    /\ ChatMessage.content m = ChatRequest.message request
    /\ ChatMessage.conversation_id m = conv_id
    /\ tasks w1 = tasks w
    /\ match resolve_conversation E (ChatRequest.conversation_id request)
               (conversations w) with
       | Some c => conv_id = c /\ conversations w1 = conversations w
       | None =>
           conv_id = uuid4 E (draws w)
           /\ conversations w1 =
              (conversations w ++
               [Conversation.mk conv_id user_uuid
                  (conversation_title (ChatRequest.message request))
                  (utcnow E (ticks w)) (utcnow E (S (ticks w)))])%list
       end.
Proof.
  unfold begin_turn, bind, get_conversations.
  destruct (resolve_conversation E (ChatRequest.conversation_id request)
              (conversations w)) as [c|]; simpl;
    do 4 eexists; repeat split; reflexivity.
Qed.

(** Steps G and H never fail: they append the assistant's message. *)
Lemma end_turn_writes_assistant (E : Env) (request : ChatRequest.t)
    (conv_id : UUID) (final_resp : option string) (executed : bool)
    (w : World) :
  exists w' m,
    end_turn E request conv_id (final_resp, executed) w =
      (inr (ChatResponse.mk (Py.or_else final_resp "Done.")
              (uuid_str E conv_id) (ChatRequest.user_id request) executed
              [("message", JStr (ChatRequest.message request))]), w')
    /\ chat_messages w' = (chat_messages w ++ [m])%list
    /\ conversations w' = conversations w
    /\ ChatMessage.role m = "assistant"
    /\ ChatMessage.content m = Py.or_else final_resp "Processed."
    /\ ChatMessage.conversation_id m = conv_id.
Proof.
  unfold end_turn, save_message, bind, now, fresh_uuid, insert_chat_message, ret.
  simpl. do 2 eexists. repeat split; reflexivity.
Qed.

(** C1. A chat request whose [user_id] is a UUID always ends in a
    response, having appended to the stored messages exactly two rows of
    the turn's conversation: first the user's message, in place before the
    model is called, then one assistant message.  When the exchange with
    the model raises, the assistant message and the response carry the
    text "I encountered an error processing your request: ..." and the
    response has [tool_calls_executed] false. *)
Theorem chat_turn_persists_both_messages
    (E : Env) (request : ChatRequest.t) (user_uuid : UUID) (w : World) :
  ChatRequest.user_id request <> "" ->
  uuid_parse E (ChatRequest.user_id request) = Some user_uuid ->
  exists conv_id messages w1 user_msg resp w3 assistant_msg,
    begin_turn E request user_uuid w = (inr (conv_id, messages), w1)
    /\ chat_messages w1 = (chat_messages w ++ [user_msg])%list
    /\ chat_endpoint E request w = (inr resp, w3)
    /\ chat_messages w3 = (chat_messages w ++ [user_msg; assistant_msg])%list
    /\ ChatMessage.role user_msg = "user"
    /\ ChatMessage.content user_msg = ChatRequest.message request
    /\ ChatMessage.conversation_id user_msg = conv_id
    /\ ChatMessage.role assistant_msg = "assistant"
    /\ ChatMessage.conversation_id assistant_msg = conv_id
    /\ ChatResponse.conversation_id resp = uuid_str E conv_id
    /\ forall e w2,
         model_turn E (ChatRequest.user_id request) messages w1 = (inl e, w2) ->
         ChatMessage.content assistant_msg =
           "I encountered an error processing your request: " ++ str_exn e
         /\ ChatResponse.response resp =
           "I encountered an error processing your request: " ++ str_exn e
         /\ ChatResponse.tool_calls_executed resp = false.
Proof.
  intros Hu Hp.
  destruct (begin_turn_writes_user E request user_uuid w)
    as (conv_id & messages & w1 & mu & Hb & Hm1 & Hr & Hc & Hi & _ & _).
  destruct (guarded_model_turn E (ChatRequest.user_id request) messages w1)
    as ([final_resp executed] & w2 & Ht & _ & Hm2 & Hfail).
  destruct (end_turn_writes_assistant E request conv_id final_resp executed w2)
    as (w3 & ma & He & Hm3 & _ & Hra & Hca & Hia).
  exists conv_id, messages, w1, mu.
  eexists. exists w3, ma.
  split; [exact Hb|]. split; [exact Hm1|]. split.
  { unfold chat_endpoint.
    destruct (String.eqb_spec (ChatRequest.user_id request) "");
      [contradiction|].
    rewrite Hp. unfold bind at 1. rewrite Hb.
    unfold bind. rewrite Ht. exact He. }
  split.
  { rewrite Hm3, Hm2, Hm1, <- app_assoc. reflexivity. }
  repeat (split; [assumption|]).
  split; [reflexivity|].
  intros e w2' Hraise. specialize (Hfail e w2' Hraise).
  inversion Hfail; subst. simpl. rewrite Hca. repeat split; reflexivity.
Qed.

Lemma chat_turn_persists_both_messages_witness :
  exists resp w3 user_msg assistant_msg,
    chat_endpoint offline_env (ChatRequest.mk "hello" "7" None) empty_world =
      (inr resp, w3)
    /\ chat_messages w3 = [user_msg; assistant_msg]
    /\ ChatMessage.role user_msg = "user"
    /\ ChatMessage.role assistant_msg = "assistant"
    /\ ChatMessage.content assistant_msg =
       "I encountered an error processing your request: Connection error."
    /\ ChatResponse.tool_calls_executed resp = false.
Proof.
  destruct (chat_turn_persists_both_messages offline_env
              (ChatRequest.mk "hello" "7" None) 7%N empty_world)
    as (conv_id & messages & w1 & mu & resp & w3 & ma & Hb & _ & He & Hm &
        Hru & _ & _ & Hra & _ & _ & Hfail).
  - discriminate.
  - reflexivity.
  - exists resp, w3, mu, ma.
    destruct (Hfail (LibraryError "Connection error.") w1) as (Hc & _ & Hx).
    + vm_compute in Hb. inversion Hb; subst. reflexivity.
    + repeat split; assumption.
Defined.

(** ** The conversation of a turn *)

(** A conversation id that does not parse, or that names no stored
    conversation, makes the turn open a new conversation of the requesting
    user and write to it. *)
Lemma chat_opens_conversation_when_unresolved
    (E : Env) (request : ChatRequest.t) (user_uuid : UUID) (w : World) :
  ChatRequest.user_id request <> "" ->
  uuid_parse E (ChatRequest.user_id request) = Some user_uuid ->
  resolve_conversation E (ChatRequest.conversation_id request)
    (conversations w) = None ->
  exists resp w' c user_msg assistant_msg,
    chat_endpoint E request w = (inr resp, w')
    /\ conversations w' = (conversations w ++ [c])%list
    /\ Conversation.user_id c = user_uuid
    /\ chat_messages w' = (chat_messages w ++ [user_msg; assistant_msg])%list
    /\ ChatMessage.conversation_id user_msg = Conversation.id c
    /\ ChatMessage.conversation_id assistant_msg = Conversation.id c.
Proof.
  intros Hu Hp Hres.
  destruct (begin_turn_writes_user E request user_uuid w)
    as (conv_id & messages & w1 & mu & Hb & Hm1 & _ & _ & Hi & _ & Hconv).
  rewrite Hres in Hconv. destruct Hconv as [Hid Hc1].
  destruct (guarded_model_turn E (ChatRequest.user_id request) messages w1)
    as ([final_resp executed] & w2 & Ht & Hc2 & Hm2 & _).
  destruct (end_turn_writes_assistant E request conv_id final_resp executed w2)
    as (w3 & ma & He & Hm3 & Hc3 & _ & _ & Hia).
  eexists. exists w3. eexists. exists mu, ma.
  split.
  { unfold chat_endpoint.
    destruct (String.eqb_spec (ChatRequest.user_id request) "");
      [contradiction|].
    rewrite Hp. unfold bind at 1. rewrite Hb.
    unfold bind. rewrite Ht. exact He. }
  split; [rewrite Hc3, Hc2, Hc1; reflexivity|].
  split; [reflexivity|].
  split; [rewrite Hm3, Hm2, Hm1, <- app_assoc; reflexivity|].
  split; assumption.
Qed.

(** C4. A conversation id that parses and names a stored conversation is
    used as it is, whoever owns that conversation: the turn opens no new
    conversation and appends both messages to the named one. *)
Theorem chat_writes_to_any_stored_conversation
    (E : Env) (request : ChatRequest.t) (user_uuid conv_id : UUID)
    (cid : string) (c : Conversation.t) (w : World) :
  ChatRequest.user_id request <> "" ->
  uuid_parse E (ChatRequest.user_id request) = Some user_uuid ->
  ChatRequest.conversation_id request = Some cid -> cid <> "" ->
  uuid_parse E cid = Some conv_id ->
  In c (conversations w) -> Conversation.id c = conv_id ->
  Conversation.user_id c <> user_uuid ->
  exists resp w' user_msg assistant_msg,
    chat_endpoint E request w = (inr resp, w')
    /\ conversations w' = conversations w
    /\ chat_messages w' = (chat_messages w ++ [user_msg; assistant_msg])%list
    /\ ChatMessage.conversation_id user_msg = Conversation.id c
    /\ ChatMessage.conversation_id assistant_msg = Conversation.id c
    /\ ChatResponse.conversation_id resp = uuid_str E (Conversation.id c).
Proof.
  intros Hu Hp Hcid Hne Hpc Hin Hid Hforeign.
  assert (Hres : resolve_conversation E (ChatRequest.conversation_id request)
                   (conversations w) = Some conv_id).
  { unfold resolve_conversation. rewrite Hcid, (truthy_Some cid Hne).
    rewrite (or_else_Some cid "" Hne), Hpc.
    replace (existsb _ _) with true; [reflexivity|].
    symmetry. apply existsb_exists. exists c. split; [exact Hin|].
    apply N.eqb_eq, Hid. }
  destruct (begin_turn_writes_user E request user_uuid w)
    as (k & messages & w1 & mu & Hb & Hm1 & _ & _ & Hi & _ & Hconv).
  rewrite Hres in Hconv. destruct Hconv as [Hk Hc1].
  rewrite Hk in Hb, Hi. clear k Hk.
  destruct (guarded_model_turn E (ChatRequest.user_id request) messages w1)
    as ([final_resp executed] & w2 & Ht & Hc2 & Hm2 & _).
  destruct (end_turn_writes_assistant E request conv_id final_resp executed w2)
    as (w3 & ma & He & Hm3 & Hc3 & _ & _ & Hia).
  eexists. exists w3, mu, ma.
  split.
  { unfold chat_endpoint.
    destruct (String.eqb_spec (ChatRequest.user_id request) "");
      [contradiction|].
    rewrite Hp. unfold bind at 1. rewrite Hb.
    unfold bind. rewrite Ht. exact He. }
  split; [rewrite Hc3, Hc2, Hc1; reflexivity|].
  split; [rewrite Hm3, Hm2, Hm1, <- app_assoc; reflexivity|].
  rewrite Hid. repeat split; assumption.
Qed.

Lemma chat_writes_to_any_stored_conversation_witness :
  exists resp w' user_msg assistant_msg,
    chat_endpoint offline_env (ChatRequest.mk "mine now" "8" (Some "1"))
      one_conversation_world = (inr resp, w')
    /\ map Conversation.user_id (conversations w') = [7%N]
    /\ chat_messages w' =
       (chat_messages one_conversation_world ++ [user_msg; assistant_msg])%list
    /\ ChatMessage.conversation_id user_msg = 1%N
    /\ ChatMessage.conversation_id assistant_msg = 1%N
    /\ ChatResponse.user_id resp = "8".
Proof.
  destruct (chat_writes_to_any_stored_conversation offline_env
              (ChatRequest.mk "mine now" "8" (Some "1")) 8%N 1%N "1"
              (Conversation.mk 1%N 7%N "hello" (sample_clock 0) (sample_clock 1))
              one_conversation_world)
    as (resp & w' & mu & ma & He & Hc & Hm & Hiu & Hia & _).
  - discriminate.
  - reflexivity.
  - reflexivity.
  - discriminate.
  - reflexivity.
  - left. reflexivity.
  - reflexivity.
  - discriminate.
  - exists resp, w', mu, ma. rewrite Hc.
    repeat split; try assumption.
    vm_compute in He. inversion He; subst. reflexivity.
Defined.

(** * Further properties of the tools *)

Set Warnings "-abstract-large-number".

(** ** Due dates: what [strptime] accepts *)

Lemma in_range_digit (lo hi : nat) (c : ascii) :
  in_range lo hi c = true -> lo <= digit c <= hi.
Proof.
  unfold in_range, digit. rewrite andb_true_iff, !Nat.leb_le. lia.
Qed.

Lemma is_digit_bound (c : ascii) : is_digit c = true -> digit c <= 9.
Proof.
  unfold is_digit, digit. rewrite andb_true_iff, !Nat.leb_le. lia.
Qed.

Lemma match_year_bound (s r : string) (y : nat) :
  match_year s = Some (y, r) -> y <= 9999.
Proof.
  replace 9999 with (9 * 1000 + 9 * 100 + 9 * 10 + 9) by reflexivity.
  unfold match_year.
  destruct s as [|a [|b [|c [|d [|e t]]]]]; try discriminate.
  destruct (is_digit a) eqn:Ha, (is_digit b) eqn:Hb, (is_digit c) eqn:Hc,
           (is_digit d) eqn:Hd, (is_dash e); simpl; try discriminate.
  intro H. inversion H; subst; clear H.
  apply is_digit_bound in Ha, Hb, Hc, Hd. lia.
Qed.

Lemma match_month_bound (s r : string) (m : nat) :
  match_month s = Some (m, r) -> 1 <= m <= 12.
Proof.
  assert (Halt : forall s,
             match s with
             | String a (String e r') =>
                 if in_range 1 9 a && is_dash e then Some (digit a, r') else None
             | _ => None
             end = Some (m, r) -> 1 <= m <= 12).
  { intros [|a [|e t]]; try discriminate.
    destruct (in_range 1 9 a) eqn:Ha; simpl; [|discriminate].
    destruct (is_dash e); [|discriminate].
    intro H. inversion H; subst. apply in_range_digit in Ha. lia. }
  unfold match_month.
  destruct s as [|a [|b [|e t]]].
  - exact (Halt "").
  - exact (Halt (String a "")).
  - exact (Halt (String a (String b ""))).
  - destruct (Ascii.eqb a "1" && in_range 0 2 b && is_dash e) eqn:H1.
  { rewrite !andb_true_iff in H1. destruct H1 as [[_ Hb] _].
    intro H. inversion H; subst. apply in_range_digit in Hb. lia. }
  destruct (Ascii.eqb a "0" && in_range 1 9 b && is_dash e) eqn:H2.
  { rewrite !andb_true_iff in H2. destruct H2 as [[_ Hb] _].
    intro H. inversion H; subst. apply in_range_digit in Hb. lia. }
  exact (Halt (String a (String b (String e t)))).
Qed.

Lemma match_day_positive (s r : string) (d : nat) :
  match_day s = Some (d, r) -> 1 <= d.
Proof.
  unfold match_day.
  destruct s as [|a [|b t]]; try discriminate.
  - destruct (in_range 1 9 a) eqn:Ha; [|discriminate].
    intro H. inversion H; subst. apply in_range_digit in Ha. lia.
  - destruct (Ascii.eqb a "3" && in_range 0 1 b) eqn:H1.
    { intro H. inversion H; subst. lia. }
    destruct (in_range 1 2 a && is_digit b) eqn:H2.
    { rewrite andb_true_iff in H2. destruct H2 as [Ha _].
      intro H. inversion H; subst. apply in_range_digit in Ha. lia. }
    destruct (Ascii.eqb a "0" && in_range 1 9 b) eqn:H3.
    { rewrite andb_true_iff in H3. destruct H3 as [_ Hb].
      intro H. inversion H; subst. apply in_range_digit in Hb. lia. }
    destruct (in_range 1 9 a) eqn:H4.
    { intro H. inversion H; subst. apply in_range_digit in H4. lia. }
    destruct (Ascii.eqb a " " && in_range 1 9 b) eqn:H5; [|discriminate].
    rewrite andb_true_iff in H5. destruct H5 as [_ Hb].
    intro H. inversion H; subst. apply in_range_digit in Hb. lia.
Qed.

Lemma strptime_ymd_fields (s : string) (d : datetime) :
  strptime_ymd s = Some d ->
  1 <= year d <= 9999 /\ 1 <= month d <= 12
  /\ 1 <= day d <= days_in_month (year d) (month d)
  /\ hour d = 0 /\ minute d = 0 /\ second d = 0 /\ microsecond d = 0.
Proof.
  unfold strptime_ymd.
  destruct (match_year s) as [[y r1]|] eqn:Hy; [|discriminate].
  destruct (match_month r1) as [[m r2]|] eqn:Hm; [|discriminate].
  destruct (match_day r2) as [[dd r3]|] eqn:Hd; [|discriminate].
  destruct (String.eqb r3 "" && (1 <=? y) && (dd <=? days_in_month y m)) eqn:Hc;
    [|discriminate].
  rewrite !andb_true_iff, !Nat.leb_le in Hc. destruct Hc as [[_ Hy1] Hdm].
  intro H. inversion H; subst; clear H. simpl.
  apply match_year_bound in Hy. apply match_month_bound in Hm.
  apply match_day_positive in Hd. repeat split; try lia; assumption.
Qed.

(** Whatever due-date text [strptime] accepts, the date stored is a
    calendar date at midnight: year 1 to 9999, month 1 to 12, a day of that
    month (29 February only in leap years), no time of day; and
    [list_tasks] prints it as that date followed by [T00:00:00]. *)
Theorem strptime_ymd_calendar_date (s : string) (d : datetime) :
  strptime_ymd s = Some d ->
  1 <= year d <= 9999 /\ 1 <= month d <= 12
  /\ 1 <= day d <= days_in_month (year d) (month d)
  /\ hour d = 0 /\ minute d = 0 /\ second d = 0 /\ microsecond d = 0
  /\ isoformat d = date_str d ++ "T00:00:00".
Proof.
  intro H.
  destruct (strptime_ymd_fields s d H) as (Hy & Hm & Hd & Hh & Hmi & Hs & Hus).
  repeat split; try assumption; try lia.
  unfold isoformat, time_str. rewrite Hh, Hmi, Hs, Hus. reflexivity.
Qed.

Lemma strptime_ymd_calendar_date_witness :
  1 <= day (mk_datetime 2024 2 29 0 0 0 0) <= days_in_month 2024 2
  /\ isoformat (mk_datetime 2024 2 29 0 0 0 0) = "2024-02-29T00:00:00".
Proof.
  destruct (strptime_ymd_calendar_date "2024-02-29"
              (mk_datetime 2024 2 29 0 0 0 0))
    as (_ & _ & Hd & _ & _ & _ & _ & Hi).
  - reflexivity.
  - split; [exact Hd|exact Hi].
Defined.

(** The shape of a year printed on four digits. *)
Definition year_shape (y : nat) : bool :=
  match Py.zfill 4 y with
  | String a (String b (String c (String d EmptyString))) =>
      is_digit a && is_digit b && is_digit c && is_digit d
      && (1000 * digit a + 100 * digit b + 10 * digit c + digit d =? y)
  | _ => false
  end.

Lemma year_shape_all : forallb year_shape (seq 0 10000) = true.
Proof. vm_compute. reflexivity. Qed.

Lemma match_year_zfill (y : nat) (r : string) :
  y <= 9999 -> match_year (Py.zfill 4 y ++ "-" ++ r) = Some (y, r).
Proof.
  intro Hy.
  assert (Hs : year_shape y = true).
  { pose proof year_shape_all as Hall. rewrite forallb_forall in Hall.
    apply Hall, in_seq.
    replace 10000 with (S 9999) by reflexivity. lia. }
  unfold year_shape in Hs.
  destruct (Py.zfill 4 y) as [|a [|b [|c [|d [|e t]]]]]; try discriminate.
  rewrite !andb_true_iff in Hs. destruct Hs as [[[[Ha Hb] Hc] Hd] Hv].
  apply Nat.eqb_eq in Hv. unfold match_year. cbn [append].
  rewrite Ha, Hb, Hc, Hd. change (is_dash "-") with true. cbn [andb].
  now rewrite Hv.
Qed.

Lemma match_month_zfill (m : nat) (r : string) :
  1 <= m <= 12 -> match_month (Py.zfill 2 m ++ "-" ++ r) = Some (m, r).
Proof.
  intro Hm.
  do 13 (destruct m as [|m]; [try lia; reflexivity|]). lia.
Qed.

Lemma match_day_zfill (d : nat) :
  1 <= d <= 31 -> match_day (Py.zfill 2 d) = Some (d, "").
Proof.
  intro Hd.
  do 32 (destruct d as [|d]; [try lia; reflexivity|]). lia.
Qed.

Lemma days_in_month_le_31 (y m : nat) : days_in_month y m <= 31.
Proof.
  unfold days_in_month.
  do 12 (destruct m as [|m]; [try destruct (is_leap y); lia|]). lia.
Qed.

(** Printing then parsing: every calendar date of the years 1 to 9999,
    printed as YYYY-MM-DD, is read back by [strptime] as that date at
    midnight. *)
Theorem strptime_ymd_reads_date_str (d : datetime) :
  1 <= year d <= 9999 -> 1 <= month d <= 12 ->
  1 <= day d <= days_in_month (year d) (month d) ->
  strptime_ymd (date_str d) = Some (mk_datetime (year d) (month d) (day d) 0 0 0 0).
Proof.
  intros Hy Hm Hd. unfold strptime_ymd, date_str.
  rewrite match_year_zfill by lia.
  rewrite match_month_zfill by lia.
  pose proof (days_in_month_le_31 (year d) (month d)) as H31.
  rewrite match_day_zfill by lia.
  replace (1 <=? year d) with true by (symmetry; apply Nat.leb_le; lia).
  replace (day d <=? days_in_month (year d) (month d)) with true
    by (symmetry; apply Nat.leb_le; lia).
  reflexivity.
Qed.

Lemma strptime_ymd_reads_date_str_witness :
  strptime_ymd (date_str (mk_datetime 2024 2 29 13 45 10 7)) =
  Some (mk_datetime 2024 2 29 0 0 0 0).
Proof.
  apply (strptime_ymd_reads_date_str (mk_datetime 2024 2 29 13 45 10 7));
    split; apply Nat.leb_le; reflexivity.
Defined.

(** A parsed due date prints, in [list_tasks], as its date followed by
    [T00:00:00]. *)
Lemma parsed_due_date_isoformat (s : string) (d : datetime) :
  strptime_ymd s = Some d -> isoformat d = date_str d ++ "T00:00:00".
Proof.
  intro H. destruct (strptime_ymd_fields s d H)
    as (_ & _ & _ & Hh & Hmi & Hs & Hus).
  unfold isoformat, time_str. rewrite Hh, Hmi, Hs, Hus. simpl.
  reflexivity.
Qed.

Lemma parsed_due_date_isoformat_witness :
  isoformat (mk_datetime 2025 12 1 0 0 0 0) = "2025-12-01T00:00:00".
Proof.
  apply (parsed_due_date_isoformat "2025-12-1"). reflexivity.
Defined.

(** ** Adding and listing *)

(** The filter [list_tasks] applies for its [status] argument: none for
    [None], the empty string and ["all"]. *)
Definition status_selected (status : option string) (t : Task.t) : bool :=
  match status with
  | Some s => if String.eqb s "" || String.eqb s "all" then true
              else String.eqb (Task.status t) s
  | None => true
  end.

(** [list_tasks] reads only: it returns the summaries of exactly the
    owner's tasks that pass the status filter, each once, ordered from the
    newest to the oldest creation time. *)
Theorem list_tasks_newest_first
    (E : Env) (uid : string) (status : option string) (w : World) :
  uid <> "" ->
  exists rows,
    list_tasks E (Some uid) status w =
      (inr [ ("status", JStr "success");
             ("tasks", JList (map (task_summary E) rows)) ], w)
    /\ Permutation rows
         (filter (status_selected status) (filter (owned_by (Some uid)) (tasks w)))
    /\ StronglySorted
         (fun a b => Datetime.leb (Task.created_at b) (Task.created_at a) = true)
         rows
    /\ forall t, In t rows -> Task.user_id t = uid.
Proof.
  intro Hu. unfold list_tasks. rewrite (truthy_Some uid Hu).
  change (negb true) with false. cbv iota.
  unfold bind, get_tasks, ret. cbv zeta beta.
  set (owned := filter (owned_by (Some uid)) (tasks w)).
  assert (Hq : (if Py.truthy status
                   && negb (String.eqb (Py.or_else status "") "all")
                then filter (fun t => String.eqb (Task.status t)
                                        (Py.or_else status "")) owned
                else owned) = filter (status_selected status) owned).
  { assert (Hall : forall l : list Task.t, filter (fun _ => true) l = l).
    { induction l as [|x l IH]; simpl; [reflexivity|now rewrite IH]. }
    destruct status as [s|]; simpl.
    - unfold Py.or_else, Py.truthy, status_selected.
      destruct (String.eqb s ""); simpl; [now rewrite Hall|].
      destruct (String.eqb s "all"); simpl; [now rewrite Hall|reflexivity].
    - unfold status_selected. now rewrite Hall. }
  rewrite Hq.
  exists (sort_by created_ge (filter (status_selected status) owned)).
  split; [reflexivity|]. split; [apply Permutation_sym, sort_by_perm|]. split.
  - apply (sort_by_sorted created_ge).
    + intros a b. apply created_le_total.
    + intros a b c Hab Hbc. unfold created_ge in *.
      eapply created_le_trans; eassumption.
  - intros t Ht. apply sort_by_In in Ht.
    apply filter_In in Ht. destruct Ht as [Ht _].
    apply filter_In in Ht. destruct Ht as [_ Ht].
    simpl in Ht. now apply String.eqb_eq in Ht.
Qed.

Lemma list_tasks_newest_first_witness :
  exists rows,
    list_tasks offline_env (Some "7") (Some "pending") milk_world =
      (inr [ ("status", JStr "success");
             ("tasks", JList (map (task_summary offline_env) rows)) ], milk_world)
    /\ forall t, In t rows -> Task.user_id t = "7".
Proof.
  destruct (list_tasks_newest_first offline_env "7" (Some "pending") milk_world)
    as (rows & H & _ & _ & Ho).
  - discriminate.
  - exists rows. split; assumption.
Defined.

(** A due date that [strptime] refuses does not stop [add_task]: the task
    is stored, pending, without a due date, and the answer is a success. *)
Theorem add_task_drops_unreadable_due_date
    (E : Env) (uid title : string) (description : option string)
    (priority s : string) (tags : option string) (w : World) :
  uid <> "" -> strptime_ymd s = None ->
  exists task w',
    add_task E (Some uid) title description priority (Some s) tags w =
      (inr [ ("status", JStr "success");
             ("message", JStr ("Task '" ++ title ++ "' added."));
             ("task", JDict [ ("id", JStr (uuid_str E (Task.id task)));
                              ("title", JStr title) ]) ], w')
    /\ tasks w' = (tasks w ++ [task])%list
    /\ Task.due_date task = None
    /\ Task.status task = "pending"
    /\ Task.user_id task = uid.
Proof.
  intros Hu Hs. unfold add_task. rewrite (truthy_Some uid Hu).
  change (negb true) with false. cbv iota.
  assert (Hp : parse_due_date (Some s) = None).
  { unfold parse_due_date. destruct (Py.truthy (Some s)); [exact Hs|reflexivity]. }
  rewrite Hp.
  unfold bind, fresh_uuid, now, get_tasks, put_tasks, ret. simpl.
  exists (Task.mk (uuid4 E (draws w)) uid title description "pending" priority
            None tags (utcnow E (ticks w)) (utcnow E (S (ticks w)))).
  eexists. split; [reflexivity|]. simpl. repeat split.
Qed.

Lemma add_task_drops_unreadable_due_date_witness :
  exists task w',
    add_task offline_env (Some "7") "Pay rent" None "high" (Some "2025-02-30")
      None milk_world =
      (inr [ ("status", JStr "success");
             ("message", JStr "Task 'Pay rent' added.");
             ("task", JDict [ ("id", JStr (sample_uuid_str (Task.id task)));
                              ("title", JStr "Pay rent") ]) ], w')
    /\ Task.due_date task = None.
Proof.
  destruct (add_task_drops_unreadable_due_date offline_env "7" "Pay rent" None
              "high" "2025-02-30" None milk_world)
    as (task & w' & H & _ & Hd & _).
  - discriminate.
  - reflexivity.
  - exists task, w'. split; assumption.
Defined.

(** ** Deleting one task *)

Lemma delete_where_none (sel : Task.t -> bool) (l : list Task.t) :
  (forall r, In r l -> sel r = false) -> delete_where sel l = l.
Proof.
  unfold delete_where. induction l as [|x l IH]; intro H; simpl.
  - reflexivity.
  - rewrite (H x (or_introl eq_refl)). simpl. f_equal.
    apply IH. intros r Hr. apply H. now right.
Qed.

(** With distinct ids, deleting by id removes the row found and no
    other. *)
Lemma delete_by_id_unique (i : UUID) (t : Task.t) (l : list Task.t) :
  NoDup (map Task.id l) -> find_task i l = Some t ->
  Permutation l (t :: delete_where (fun r => N.eqb (Task.id r) i) l)
  /\ ~ In t (delete_where (fun r => N.eqb (Task.id r) i) l).
Proof.
  unfold find_task. induction l as [|x l IH]; simpl; intros Hnd Hf.
  - discriminate.
  - inversion Hnd as [|? ? Hnotin Hnd']; subst.
    destruct (N.eqb (Task.id x) i) eqn:Hx; simpl.
    + inversion Hf; subst. apply N.eqb_eq in Hx.
      rewrite delete_where_none.
      * split; [apply Permutation_refl|].
        intro Hin. apply Hnotin. now apply in_map.
      * intros r Hr. apply N.eqb_neq. intro Heq. apply Hnotin.
        rewrite Hx, <- Heq. now apply in_map.
    + destruct (IH Hnd' Hf) as [Hp Hn]. split.
      * eapply perm_trans; [apply perm_skip, Hp|apply perm_swap].
      * intros [Heq|Hin]; [|now apply Hn].
        subst x. apply find_some in Hf. destruct Hf as [_ Hf]. congruence.
Qed.

(** [delete_task] by id deletes nothing unless the id parses and names a
    task of the caller: a malformed id, an unknown id and the id of another
    owner's task all end in status error with the store as it was. *)
Theorem delete_task_by_id_rejects
    (E : Env) (uid task_id : string) (task_title : option string) (w : World) :
  uid <> "" -> task_id <> "" ->
  (forall u t, uuid_parse E task_id = Some u ->
               find_task u (tasks w) = Some t -> Task.user_id t <> uid) ->
  exists message,
    delete_task E (Some uid) task_title (Some task_id) w =
      (inr [ ("status", JStr "error"); ("message", JStr message) ], w)
    /\ (message = "Invalid ID format." \/
        message = "Task ID " ++ task_id ++ " not found.").
Proof.
  intros Hu Hi Hforeign. unfold delete_task.
  rewrite (truthy_Some uid Hu), (truthy_Some task_id Hi).
  rewrite andb_false_r. change (negb true) with false. cbv beta iota.
  rewrite (or_else_Some task_id "" Hi).
  destruct (uuid_parse E task_id) as [u|] eqn:Hp.
  - unfold bind, get_tasks. cbv beta iota zeta. simpl owner_string.
    destruct (find_task u (tasks w)) as [t|] eqn:Hf; unfold ret.
    + specialize (Hforeign u t eq_refl Hf). cbn [owner_string].
      destruct (String.eqb_spec (Task.user_id t) uid); [contradiction|].
      eexists. split; [reflexivity|]. now right.
    + eexists. split; [reflexivity|]. now right.
  - unfold ret. eexists. split; [reflexivity|]. now left.
Qed.

Lemma delete_task_by_id_rejects_witness :
  exists message,
    delete_task offline_env (Some "8") None (Some "1") milk_world =
      (inr [ ("status", JStr "error"); ("message", JStr message) ], milk_world).
Proof.
  destruct (delete_task_by_id_rejects offline_env "8" "1" None milk_world)
    as (message & H & _).
  - discriminate.
  - discriminate.
  - intros u t Hp Hf. vm_compute in Hp. inversion Hp; subst.
    vm_compute in Hf. inversion Hf; subst. discriminate.
  - exists message. exact H.
Defined.

(** [delete_task] by the id of one of the caller's tasks removes that row
    and nothing else (ids being distinct, as a primary key is), and reports
    the title of the deleted task. *)
Theorem delete_task_by_id_removes_one
    (E : Env) (uid task_id : string) (task_title : option string)
    (u : UUID) (t : Task.t) (w : World) :
  uid <> "" -> task_id <> "" ->
  uuid_parse E task_id = Some u -> find_task u (tasks w) = Some t ->
  Task.user_id t = uid -> NoDup (map Task.id (tasks w)) ->
  exists w',
    delete_task E (Some uid) task_title (Some task_id) w =
      (inr [ ("status", JStr "success");
             ("message", JStr ("Task '" ++ Task.title t ++ "' deleted.")) ], w')
    /\ Permutation (tasks w) (t :: tasks w')
    /\ ~ In t (tasks w')
    /\ conversations w' = conversations w
    /\ chat_messages w' = chat_messages w.
Proof.
  intros Hu Hi Hp Hf Ho Hnd. unfold delete_task.
  rewrite (truthy_Some uid Hu), (truthy_Some task_id Hi).
  rewrite andb_false_r. change (negb true) with false. cbv beta iota.
  rewrite (or_else_Some task_id "" Hi), Hp.
  unfold bind, get_tasks. cbv beta iota zeta. rewrite Hf. cbn [owner_string].
  rewrite Ho, String.eqb_refl. simpl.
  eexists. split; [reflexivity|]. simpl.
  destruct (delete_by_id_unique u t (tasks w) Hnd Hf) as [H1 H2].
  repeat split; assumption.
Qed.

Lemma delete_task_by_id_removes_one_witness :
  exists w',
    delete_task offline_env (Some "7") (Some "Walk") (Some "2") milk_world =
      (inr [ ("status", JStr "success");
             ("message", JStr "Task 'Buy milk' deleted.") ], w')
    /\ List.length (tasks w') = 2.
Proof.
  destruct (delete_task_by_id_removes_one offline_env "7" "2" (Some "Walk") 2%N
              (Task.mk 2%N "7" "Buy milk" None "pending" "high" None None
                 (sample_clock 2) (sample_clock 3)) milk_world)
    as (w' & H & Hp & _).
  - discriminate.
  - discriminate.
  - reflexivity.
  - reflexivity.
  - reflexivity.
  - vm_compute. repeat constructor; simpl; intuition discriminate.
  - exists w'. split; [exact H|].
    apply Permutation_length in Hp.
    change (List.length (tasks milk_world)) with 3 in Hp.
    simpl in Hp. lia.
Defined.

(** When an id is given, [delete_task] goes by the id and never looks at
    the title. *)
Theorem delete_task_id_takes_precedence
    (E : Env) (user_id task_title task_title' task_id : option string)
    (w : World) :
  Py.truthy task_id = true ->
  delete_task E user_id task_title task_id w =
  delete_task E user_id task_title' task_id w.
Proof.
  intro Hi. unfold delete_task. rewrite Hi, !andb_false_r. reflexivity.
Qed.

Lemma delete_task_id_takes_precedence_witness :
  delete_task offline_env (Some "7") (Some "Walk") (Some "1") milk_world =
  delete_task offline_env (Some "7") None (Some "1") milk_world.
Proof.
  apply (delete_task_id_takes_precedence offline_env (Some "7") (Some "Walk")
           None (Some "1") milk_world).
  reflexivity.
Defined.

Lemma filter_split {A : Type} (f : A -> bool) (l : list A) :
  Permutation l (filter f l ++ filter (fun x => negb (f x)) l)%list.
Proof.
  induction l as [|x l IH]; simpl; [constructor|].
  destruct (f x); simpl.
  - now constructor.
  - now apply Permutation_cons_app.
Qed.

(** [delete_task] by title deletes only when exactly one task of the
    owner has the title: then that row goes and every other row stays. *)
Theorem delete_task_by_title_removes_the_match
    (E : Env) (uid task_title : string) (task_id : option string)
    (t : Task.t) (w : World) :
  uid <> "" -> task_title <> "" -> Py.truthy task_id = false ->
  filter (matching (Some uid) task_title) (tasks w) = [t] ->
  exists w',
    delete_task E (Some uid) (Some task_title) task_id w =
      (inr [ ("status", JStr "success");
             ("message", JStr ("Task '" ++ task_title ++ "' deleted.")) ], w')
    /\ Permutation (tasks w) (t :: tasks w')
    /\ filter (matching (Some uid) task_title) (tasks w') = []
    /\ (forall r, In r (tasks w) ->
                  matching (Some uid) task_title r = false -> In r (tasks w')).
Proof.
  intros Hu Ht Hid Hf. unfold delete_task.
  rewrite (truthy_Some uid Hu), (truthy_Some task_title Ht), Hid. simpl.
  rewrite (or_else_Some task_title "" Ht).
  unfold bind, get_tasks. cbv beta iota zeta.
  unfold same_title_oldest_first. rewrite Hf. simpl.
  eexists. split; [reflexivity|]. simpl. split; [|split].
  - pose proof (filter_split (matching (Some uid) task_title) (tasks w)) as Hp.
    rewrite Hf in Hp. exact Hp.
  - unfold delete_where. clear Hf.
    induction (tasks w) as [|x l IH]; simpl; [reflexivity|].
    destruct (matching (Some uid) task_title x) eqn:Hx; simpl; [exact IH|].
    rewrite Hx. exact IH.
  - intros r Hr Hm. unfold delete_where. apply filter_In.
    split; [exact Hr|]. now rewrite Hm.
Qed.

Lemma delete_task_by_title_removes_the_match_witness :
  exists w',
    delete_task offline_env (Some "7") (Some "Walk") None milk_world =
      (inr [ ("status", JStr "success");
             ("message", JStr "Task 'Walk' deleted.") ], w')
    /\ filter (matching (Some "7") "Walk") (tasks w') = [].
Proof.
  destruct (delete_task_by_title_removes_the_match offline_env "7" "Walk" None
              (Task.mk 3%N "7" "Walk" None "pending" "low" None None
                 (sample_clock 4) (sample_clock 5)) milk_world)
    as (w' & H & _ & He & _).
  - discriminate.
  - discriminate.
  - reflexivity.
  - reflexivity.
  - exists w'. split; assumption.
Defined.

(** Unless exactly one task matches, [delete_task] by title deletes
    nothing and answers with status error. *)
Theorem delete_task_by_title_needs_one_match
    (E : Env) (uid task_title : string) (task_id : option string) (w : World) :
  uid <> "" -> task_title <> "" -> Py.truthy task_id = false ->
  List.length (filter (matching (Some uid) task_title) (tasks w)) <> 1 ->
  exists r,
    delete_task E (Some uid) (Some task_title) task_id w = (inr r, w)
    /\ dict_get "status" r = Some (JStr "error").
Proof.
  intros Hu Ht Hid Hlen. unfold delete_task.
  rewrite (truthy_Some uid Hu), (truthy_Some task_title Ht), Hid. simpl.
  rewrite (or_else_Some task_title "" Ht).
  unfold bind, get_tasks. cbv beta iota zeta.
  pose proof (sort_by_length created_le
                (filter (matching (Some uid) task_title) (tasks w))) as Hs.
  unfold same_title_oldest_first.
  destruct (sort_by created_le
              (filter (matching (Some uid) task_title) (tasks w)))
    as [|a [|b l]]; simpl in Hs.
  - eexists. split; reflexivity.
  - congruence.
  - eexists. split; reflexivity.
Qed.

Lemma delete_task_by_title_needs_one_match_witness :
  exists r,
    delete_task offline_env (Some "7") (Some "Swim") None milk_world =
      (inr r, milk_world)
    /\ dict_get "status" r = Some (JStr "error").
Proof.
  apply (delete_task_by_title_needs_one_match offline_env "7" "Swim" None
           milk_world).
  - discriminate.
  - discriminate.
  - reflexivity.
  - vm_compute. discriminate.
Defined.

(** ** Updating one task *)

(** Unless the owner and the title are given and exactly one task
    matches, [update_task_by_title] changes nothing and answers with status
    error. *)
Theorem update_task_needs_one_match
    (E : Env) (user_id : option string) (current_title : string)
    (new_title description priority status due_date tags : option string)
    (w : World) :
  Py.truthy user_id = false \/ current_title = "" \/
  List.length (filter (matching user_id current_title) (tasks w)) <> 1 ->
  exists message,
    update_task_by_title E user_id current_title new_title description
      priority status due_date tags w =
    (inr [ ("status", JStr "error"); ("message", JStr message) ], w).
Proof.
  intro H. unfold update_task_by_title.
  destruct (negb (Py.truthy user_id) || String.eqb current_title "") eqn:Hg.
  - eexists. reflexivity.
  - apply orb_false_iff in Hg. destruct Hg as [Hu Ht].
    apply negb_false_iff in Hu. apply String.eqb_neq in Ht.
    destruct H as [H|[H|H]]; [congruence|contradiction|].
    unfold bind, get_tasks. cbv beta iota zeta.
    destruct (filter (matching user_id current_title) (tasks w))
      as [|a [|b l]]; simpl in H.
    + eexists. reflexivity.
    + congruence.
    + eexists. reflexivity.
Qed.

Lemma update_task_needs_one_match_witness :
  exists message,
    update_task_by_title offline_env (Some "7") "Swim" (Some "Run") None None
      None None None milk_world =
    (inr [ ("status", JStr "error"); ("message", JStr message) ], milk_world).
Proof.
  apply (update_task_needs_one_match offline_env (Some "7") "Swim").
  right. right. vm_compute. discriminate.
Defined.

Lemma filter_singleton {A : Type} (f : A -> bool) (l : list A) (t : A) :
  filter f l = [t] ->
  exists l1 l2,
    l = (l1 ++ t :: l2)%list /\ f t = true
    /\ (forall r, In r l1 -> f r = false)
    /\ (forall r, In r l2 -> f r = false).
Proof.
  induction l as [|x l IH]; simpl; intro H; [discriminate|].
  destruct (f x) eqn:Hx.
  - inversion H as [[Hxt Hnil]]. subst x.
    exists [], l. repeat split; try assumption.
    + intros r [].
    + intros r Hr. destruct (f r) eqn:Hr'; [|reflexivity].
      assert (Hin : In r (filter f l)) by (apply filter_In; now split).
      rewrite Hnil in Hin. destruct Hin.
  - destruct (IH H) as (l1 & l2 & Hl & Ht & H1 & H2).
    exists (x :: l1), l2. subst l. repeat split; try assumption.
    intros r [<-|Hr]; [exact Hx|now apply H1].
Qed.

Lemma update_where_none (sel : Task.t -> bool) (f : Task.t -> Task.t)
    (l : list Task.t) :
  (forall r, In r l -> sel r = false) -> update_where sel f l = l.
Proof.
  unfold update_where. induction l as [|x l IH]; intro H; simpl.
  - reflexivity.
  - rewrite (H x (or_introl eq_refl)). f_equal.
    apply IH. intros r Hr. apply H. now right.
Qed.

(** A successful [update_task_by_title] rewrites the one matching row in
    place: the rows before and after it are untouched, the row keeps its
    id, owner and creation time, and its [updated_at] is the clock reading
    of the call. *)
Theorem update_task_rewrites_one_row
    (E : Env) (uid current_title : string)
    (new_title description priority status due_date tags : option string)
    (w : World) (task : Task.t) :
  uid <> "" -> current_title <> "" ->
  filter (matching (Some uid) current_title) (tasks w) = [task] ->
  exists l1 l2 task' w',
    snd (update_task_by_title E (Some uid) current_title new_title description
           priority status due_date tags w) = w'
    /\ tasks w = (l1 ++ task :: l2)%list
    /\ tasks w' = (l1 ++ task' :: l2)%list
    /\ Task.id task' = Task.id task
    /\ Task.user_id task' = uid
    /\ Task.created_at task' = Task.created_at task
    /\ Task.updated_at task' = utcnow E (ticks w)
    /\ conversations w' = conversations w
    /\ chat_messages w' = chat_messages w.
Proof.
  intros Hu Ht Hf.
  destruct (filter_singleton _ _ _ Hf) as (l1 & l2 & Hl & Hm & H1 & H2).
  exists l1, l2.
  exists (Task.set_updated_at (utcnow E (ticks w))
            (apply_patch new_title description priority status due_date tags task)).
  eexists. split; [reflexivity|].
  unfold update_task_by_title.
  rewrite (truthy_Some uid Hu).
  destruct (String.eqb_spec current_title ""); [contradiction|]. simpl.
  unfold bind, get_tasks. cbv beta iota zeta. rewrite Hf.
  unfold now, put_tasks, ret. simpl.
  split; [exact Hl|]. split.
  { rewrite Hl. unfold update_where. rewrite map_app. simpl. rewrite Hm.
    fold (update_where (matching (Some uid) current_title)
            (fun _ => Task.set_updated_at (utcnow E (ticks w))
                        (apply_patch new_title description priority status
                                     due_date tags task)) l1).
    fold (update_where (matching (Some uid) current_title)
            (fun _ => Task.set_updated_at (utcnow E (ticks w))
                        (apply_patch new_title description priority status
                                     due_date tags task)) l2).
    now rewrite !update_where_none. }
  destruct (apply_patch_frame new_title description priority status due_date
              tags task) as (Hid & Hown & Hc & _).
  unfold matching in Hm. apply andb_true_iff in Hm. destruct Hm as [Ho _].
  simpl in Ho. apply String.eqb_eq in Ho.
  repeat split; try assumption; congruence.
Qed.

Lemma update_task_rewrites_one_row_witness :
  exists l1 l2 task' w',
    snd (update_task_by_title offline_env (Some "7") "Walk" (Some "Run") None
           None None None None milk_world) = w'
    /\ tasks w' = (l1 ++ task' :: l2)%list
    /\ Task.id task' = 3%N.
Proof.
  destruct (update_task_rewrites_one_row offline_env "7" "Walk" (Some "Run")
              None None None None None milk_world
              (Task.mk 3%N "7" "Walk" None "pending" "low" None None
                 (sample_clock 4) (sample_clock 5)))
    as (l1 & l2 & task' & w' & Hw & Hl & Hl' & Hid & _).
  - discriminate.
  - discriminate.
  - reflexivity.
  - exists l1, l2, task', w'. repeat split; assumption.
Defined.

(** ** Analytics *)

(** The facts about one score: it is the exact percentage rounded down, or
    one below that (the quotient is taken in floating point before it is
    multiplied by 100); it is 100 when all tasks are completed and 0 when
    none is. *)
Definition score_within (c t : nat) : bool :=
  match productivity_score c t with
  | Some z =>
      (Z.of_nat (100 * c / t) - 1 <=? z)%Z && (z <=? Z.of_nat (100 * c / t))%Z
      && (0 <=? z)%Z && (z <=? 100)%Z
      && ((z =? 100)%Z || negb (c =? t)) && ((z =? 0)%Z || negb (c =? 0))
  | None => false
  end.

Definition scores_within (n : nat) : bool :=
  forallb (fun t => forallb (fun c => score_within c (S t)) (seq 0 (S (S t))))
          (seq 0 n).

Lemma scores_within_100 : scores_within 100 = true.
Proof. vm_compute. reflexivity. Qed.

(** For up to 100 tasks the productivity score is defined, lies between 0
    and 100, is the integer percentage of completed tasks or one less, is
    100 when everything is completed and 0 when nothing is. *)
Lemma productivity_score_bounds (c t : nat) :
  1 <= t <= 100 -> c <= t ->
  exists z,
    productivity_score c t = Some z
    /\ (Z.of_nat (100 * c / t) - 1 <= z <= Z.of_nat (100 * c / t))%Z
    /\ (0 <= z <= 100)%Z
    /\ (c = t -> z = 100%Z)
    /\ (c = 0 -> z = 0%Z).
Proof.
  intros Ht Hc.
  pose proof scores_within_100 as Hall. unfold scores_within in Hall.
  rewrite forallb_forall in Hall.
  assert (Hin : In (t - 1) (seq 0 100)) by (apply in_seq; lia).
  specialize (Hall _ Hin). rewrite forallb_forall in Hall.
  assert (Hinc : In c (seq 0 (S (S (t - 1))))) by (apply in_seq; lia).
  specialize (Hall _ Hinc).
  replace (S (t - 1)) with t in Hall by lia.
  unfold score_within in Hall.
  destruct (productivity_score c t) as [z|]; [|discriminate].
  exists z. split; [reflexivity|].
  rewrite !andb_true_iff, !orb_true_iff, !negb_true_iff in Hall.
  rewrite !Z.leb_le, !Z.eqb_eq, !Nat.eqb_neq in Hall.
  destruct Hall as [[[[[H1 H2] H3] H4] H5] H6].
  repeat split; try assumption.
  - intro He. destruct H5 as [H5|H5]; [exact H5|contradiction].
  - intro He. destruct H6 as [H6|H6]; [exact H6|contradiction].
Qed.

Lemma productivity_score_bounds_witness :
  exists z, productivity_score 29 100 = Some z /\ (28 <= z <= 29)%Z.
Proof.
  destruct (productivity_score_bounds 29 100) as (z & Hz & Hb & _).
  - lia.
  - lia.
  - exists z. split; [exact Hz|].
    change (Z.of_nat (100 * 29 / 100)) with 29%Z in Hb. lia.
Defined.

Lemma filter_length_le {A : Type} (f : A -> bool) (l : list A) :
  List.length (filter f l) <= List.length l.
Proof.
  induction l as [|x l IH]; simpl; [lia|]. destruct (f x); simpl; lia.
Qed.

Lemma two_statuses_length (l : list Task.t) :
  List.length (filter (has_status "completed") l)
  + List.length (filter (has_status "pending") l) <= List.length l.
Proof.
  induction l as [|x l IH]; simpl; [lia|].
  destruct (has_status "completed" x) eqn:Hc, (has_status "pending" x) eqn:Hp;
    simpl; try lia.
  unfold has_status in Hc, Hp.
  apply String.eqb_eq in Hc, Hp. rewrite Hc in Hp. discriminate.
Qed.

(** [get_analytics] reads only.  For an owner with at most 100 tasks it
    reports how many tasks the owner has, how many are completed and how
    many pending (together never more than the total), and a score between
    0 and 100 that is the exact percentage of completed tasks rounded down,
    or one below that; 100 when all are completed, 0 without tasks. *)
Theorem get_analytics_counts (E : Env) (user_id : option string) (w : World) :
  List.length (filter (owned_by user_id) (tasks w)) <= 100 ->
  exists total completed pending score,
    get_analytics E user_id w =
      (inr [ ("status", JStr "success");
             ("analytics",
              JDict [ ("tasks_total", JInt (Z.of_nat total));
                      ("tasks_completed", JInt (Z.of_nat completed));
                      ("tasks_pending", JInt (Z.of_nat pending));
                      ("productivity_score", JInt score) ]) ], w)
    /\ total = List.length (filter (owned_by user_id) (tasks w))
    /\ completed =
       List.length (filter (fun t => owned_by user_id t && has_status "completed" t)
                           (tasks w))
    /\ completed + pending <= total
    /\ (0 <= score <= 100)%Z
    /\ (total = 0 -> score = 0%Z)
    /\ (0 < total -> completed = total -> score = 100%Z)
    /\ (0 < total ->
        (Z.of_nat (100 * completed / total) - 1 <= score
         <= Z.of_nat (100 * completed / total))%Z).
Proof.
  intro Hn. unfold get_analytics, bind, get_tasks. cbv beta iota zeta.
  set (owned := filter (owned_by user_id) (tasks w)) in *.
  set (completed := List.length (filter (has_status "completed") owned)).
  set (pending := List.length (filter (has_status "pending") owned)).
  assert (Hcp : completed + pending <= List.length owned)
    by apply two_statuses_length.
  assert (Hff : completed =
                List.length (filter (fun t => owned_by user_id t
                                              && has_status "completed" t)
                                    (tasks w))).
  { unfold completed, owned. clear.
    induction (tasks w) as [|x l IH]; simpl; [reflexivity|].
    destruct (owned_by user_id x); simpl; [|exact IH].
    destruct (has_status "completed" x); simpl; now rewrite IH. }
  destruct (List.length owned) as [|n] eqn:Hlen.
  - assert (completed = 0) by lia. rewrite H.
    exists 0, 0, pending, 0%Z. split; [reflexivity|].
    repeat split; try lia; congruence.
  - destruct (productivity_score_bounds completed (S n))
      as (z & Hz & Hfloor & Hb & H100 & _); [lia|lia|].
    rewrite Hz. exists (S n), completed, pending, z.
    split; [reflexivity|]. repeat split; try lia; try assumption;
      try (intros _ He; now apply H100).
Qed.

Lemma get_analytics_counts_witness :
  exists total completed pending score,
    get_analytics offline_env (Some "7") two_of_three_world =
      (inr [ ("status", JStr "success");
             ("analytics",
              JDict [ ("tasks_total", JInt (Z.of_nat total));
                      ("tasks_completed", JInt (Z.of_nat completed));
                      ("tasks_pending", JInt (Z.of_nat pending));
                      ("productivity_score", JInt score) ]) ],
       two_of_three_world)
    /\ completed + pending <= total.
Proof.
  destruct (get_analytics_counts offline_env (Some "7") two_of_three_world)
    as (total & completed & pending & score & H & _ & _ & Hle & _).
  - vm_compute. lia.
  - exists total, completed, pending, score. split; assumption.
Defined.

(** ** Bulk operations *)

Lemma filter_negb_none {A : Type} (f : A -> bool) (l : list A) :
  filter f (filter (fun x => negb (f x)) l) = [].
Proof.
  induction l as [|x l IH]; simpl; [reflexivity|].
  destruct (f x) eqn:Hx; simpl; [exact IH|]. now rewrite Hx.
Qed.

(** [delete_all_tasks] removes every task of the owner and no other, and
    says how many it removed; afterwards the owner's list is empty and the
    analytics count nothing. *)
Theorem delete_all_tasks_removes_owner_tasks
    (E : Env) (uid : string) (w : World) :
  uid <> "" ->
  exists w',
    delete_all_tasks E (Some uid) w =
      (inr [ ("status", JStr "success");
             ("message",
              JStr ("Deleted " ++
                    Py.str_of_nat
                      (List.length (filter (owned_by (Some uid)) (tasks w))) ++
                    " tasks.")) ], w')
    /\ tasks w' = filter (fun t => negb (String.eqb (Task.user_id t) uid)) (tasks w)
    /\ list_tasks E (Some uid) None w' =
         (inr [ ("status", JStr "success"); ("tasks", JList []) ], w')
    /\ get_analytics E (Some uid) w' =
         (inr [ ("status", JStr "success");
                ("analytics",
                 JDict [ ("tasks_total", JInt 0); ("tasks_completed", JInt 0);
                         ("tasks_pending", JInt 0);
                         ("productivity_score", JInt 0) ]) ], w').
Proof.
  intro Hu.
  exists (mk_World (delete_where (owned_by (Some uid)) (tasks w))
            (conversations w) (chat_messages w) (ticks w) (draws w)).
  split; [reflexivity|]. simpl.
  split; [reflexivity|].
  assert (Hnone : filter (owned_by (Some uid))
                    (delete_where (owned_by (Some uid)) (tasks w)) = [])
    by apply filter_negb_none.
  split.
  - unfold list_tasks. rewrite (truthy_Some uid Hu).
    change (negb true) with false. cbv iota.
    unfold bind, get_tasks, ret. cbv beta iota zeta. simpl tasks.
    rewrite Hnone. reflexivity.
  - apply get_analytics_no_tasks. exact Hnone.
Qed.

Lemma delete_all_tasks_removes_owner_tasks_witness :
  exists w',
    delete_all_tasks offline_env (Some "7") milk_world =
      (inr [ ("status", JStr "success");
             ("message", JStr "Deleted 3 tasks.") ], w')
    /\ tasks w' = [].
Proof.
  destruct (delete_all_tasks_removes_owner_tasks offline_env "7" milk_world)
    as (w' & H & Ht & _).
  - discriminate.
  - exists w'. split; [exact H|]. rewrite Ht. reflexivity.
Defined.

Lemma owned_by_set_status (user_id : option string) (s : string) (t : Task.t) :
  owned_by user_id (Task.set_status s t) = owned_by user_id t.
Proof. destruct user_id; reflexivity. Qed.

Lemma update_where_status_twice (user_id : option string) (s1 s2 : string)
    (l : list Task.t) :
  update_where (owned_by user_id) (Task.set_status s2)
    (update_where (owned_by user_id) (Task.set_status s1) l) =
  update_where (owned_by user_id) (Task.set_status s2) l.
Proof.
  unfold update_where. rewrite map_map. apply map_ext. intro r.
  destruct (owned_by user_id r) eqn:Hr.
  - now rewrite owned_by_set_status, Hr.
  - now rewrite Hr.
Qed.

(** Of two bulk status operations the last one decides:
    [mark_all_tasks_incomplete] undoes [complete_all_tasks] and the other
    way round, and repeating either changes nothing more. *)
Theorem bulk_status_last_wins (E : Env) (user_id : option string) (w : World) :
  tasks (exec (mark_all_tasks_incomplete E user_id)
           (exec (complete_all_tasks E user_id) w)) =
    tasks (exec (mark_all_tasks_incomplete E user_id) w)
  /\ tasks (exec (complete_all_tasks E user_id)
              (exec (mark_all_tasks_incomplete E user_id) w)) =
       tasks (exec (complete_all_tasks E user_id) w)
  /\ exec (complete_all_tasks E user_id) (exec (complete_all_tasks E user_id) w) =
       exec (complete_all_tasks E user_id) w
  /\ exec (mark_all_tasks_incomplete E user_id)
          (exec (mark_all_tasks_incomplete E user_id) w) =
       exec (mark_all_tasks_incomplete E user_id) w.
Proof.
  unfold exec, complete_all_tasks, mark_all_tasks_incomplete, bind, get_tasks,
    put_tasks, ret; simpl.
  repeat split; try apply update_where_status_twice;
    f_equal; apply update_where_status_twice.
Qed.

(** The bulk status operations change nothing but the status of the
    owner's tasks: the rows of other owners are as before, and so is every
    other field of every row. *)
Theorem bulk_status_frame (E : Env) (user_id : option string) (w : World) :
  let w1 := exec (complete_all_tasks E user_id) w in
  let w2 := exec (mark_all_tasks_incomplete E user_id) w in
  (forall s, map (Task.set_status s) (tasks w1) = map (Task.set_status s) (tasks w))
  /\ (forall s, map (Task.set_status s) (tasks w2) = map (Task.set_status s) (tasks w))
  /\ filter (fun t => negb (owned_by user_id t)) (tasks w1) =
     filter (fun t => negb (owned_by user_id t)) (tasks w)
  /\ filter (fun t => negb (owned_by user_id t)) (tasks w2) =
     filter (fun t => negb (owned_by user_id t)) (tasks w)
  /\ (forall t, In t (tasks w2) -> owned_by user_id t = true ->
                Task.status t = "pending")
  /\ conversations w1 = conversations w /\ chat_messages w1 = chat_messages w
  /\ conversations w2 = conversations w /\ chat_messages w2 = chat_messages w.
Proof.
  cbv zeta.
  unfold exec, complete_all_tasks, mark_all_tasks_incomplete, bind, get_tasks,
    put_tasks, ret; simpl.
  assert (Hmap : forall s s', map (Task.set_status s)
                   (update_where (owned_by user_id) (Task.set_status s') (tasks w))
                 = map (Task.set_status s) (tasks w)).
  { intros s s'. unfold update_where. rewrite map_map. apply map_ext.
    intro r. now destruct (owned_by user_id r). }
  assert (Hfil : forall s' l, filter (fun t => negb (owned_by user_id t))
                   (update_where (owned_by user_id) (Task.set_status s') l)
                 = filter (fun t => negb (owned_by user_id t)) l).
  { intros s' l. unfold update_where.
    induction l as [|x l IH]; simpl; [reflexivity|].
    destruct (owned_by user_id x) eqn:Hx.
    - rewrite owned_by_set_status, Hx. simpl. exact IH.
    - rewrite Hx. simpl. now rewrite IH. }
  repeat split; auto.
  intros t Hin Hown. unfold update_where in Hin.
  apply in_map_iff in Hin. destruct Hin as (r & Hr & _).
  destruct (owned_by user_id r) eqn:Hor; subst t; [reflexivity|congruence].
Qed.

(** ** No tool call reaches another owner's tasks *)

(** The tasks that do not belong to [uid]. *)
Definition others (uid : string) (l : list Task.t) : list Task.t :=
  filter (fun t => negb (String.eqb (Task.user_id t) uid)) l.

(** A computation, run on a table with distinct ids, leaves the tasks of
    everybody but [uid] as they were. *)
Definition spares_others {A : Type} (uid : string) (m : M A) : Prop :=
  forall w, NoDup (map Task.id (tasks w)) ->
            others uid (tasks (snd (m w))) = others uid (tasks w).

Lemma others_delete_where (uid : string) (sel : Task.t -> bool)
    (l : list Task.t) :
  (forall r, In r l -> sel r = true -> Task.user_id r = uid) ->
  others uid (delete_where sel l) = others uid l.
Proof.
  unfold others, delete_where. induction l as [|x l IH]; intro H; simpl.
  - reflexivity.
  - assert (IH' := IH (fun r Hr => H r (or_intror Hr))).
    destruct (sel x) eqn:Hx; simpl.
    + rewrite (H x (or_introl eq_refl) Hx), String.eqb_refl. simpl. exact IH'.
    + now rewrite IH'.
Qed.

Lemma others_update_where (uid : string) (sel : Task.t -> bool)
    (f : Task.t -> Task.t) (l : list Task.t) :
  (forall r, In r l -> sel r = true ->
             Task.user_id r = uid /\ Task.user_id (f r) = uid) ->
  others uid (update_where sel f l) = others uid l.
Proof.
  unfold others, update_where. induction l as [|x l IH]; intro H; simpl.
  - reflexivity.
  - assert (IH' := IH (fun r Hr => H r (or_intror Hr))).
    destruct (sel x) eqn:Hx.
    + destruct (H x (or_introl eq_refl) Hx) as [H1 H2].
      rewrite H1, H2, String.eqb_refl. simpl. exact IH'.
    + now rewrite IH'.
Qed.

Lemma matching_owner (uid title : string) (r : Task.t) :
  matching (Some uid) title r = true -> Task.user_id r = uid.
Proof.
  unfold matching. intro H. apply andb_true_iff in H. destruct H as [H _].
  now apply String.eqb_eq in H.
Qed.

Lemma find_task_the_only (i : UUID) (t r : Task.t) (l : list Task.t) :
  NoDup (map Task.id l) -> find_task i l = Some t ->
  In r l -> N.eqb (Task.id r) i = true -> r = t.
Proof.
  unfold find_task. induction l as [|x l IH]; simpl; intros Hnd Hf Hin Hr.
  - destruct Hin.
  - inversion Hnd as [|? ? Hnotin Hnd']; subst.
    apply N.eqb_eq in Hr.
    destruct (N.eqb (Task.id x) i) eqn:Hx.
    + inversion Hf as [Hxt]. subst x. apply N.eqb_eq in Hx.
      destruct Hin as [Heq|Hin]; [exact (eq_sym Heq)|].
      exfalso. apply Hnotin.
      replace (Task.id t) with (Task.id r) by congruence. now apply in_map.
    + destruct Hin as [Heq|Hin].
      * subst r. apply N.eqb_neq in Hx. contradiction.
      * apply IH; try assumption. now apply N.eqb_eq.
Qed.

Lemma spares_add_task E uid title description priority due_date tags :
  spares_others uid
    (add_task E (Some uid) title description priority due_date tags).
Proof.
  intros w _. unfold add_task.
  destruct (Py.truthy (Some uid)); simpl; [|reflexivity].
  unfold others. rewrite filter_app. simpl.
  rewrite String.eqb_refl. simpl. apply app_nil_r.
Qed.

Lemma spares_list_tasks E uid status :
  spares_others uid (list_tasks E (Some uid) status).
Proof.
  intros w _. unfold list_tasks.
  destruct (Py.truthy (Some uid)); reflexivity.
Qed.

Lemma spares_get_analytics E uid : spares_others uid (get_analytics E (Some uid)).
Proof. intros w _. now rewrite get_analytics_pure. Qed.

Lemma spares_delete_task E uid task_title task_id :
  spares_others uid (delete_task E (Some uid) task_title task_id).
Proof.
  intros w Hnd. unfold delete_task.
  destruct (Py.truthy (Some uid)); simpl; [|reflexivity].
  destruct (negb (Py.truthy task_title) && negb (Py.truthy task_id));
    [reflexivity|].
  destruct (Py.truthy task_id).
  - destruct (uuid_parse E (Py.or_else task_id "")) as [u|]; [|reflexivity].
    unfold bind, get_tasks. cbv beta iota zeta.
    destruct (find_task u (tasks w)) as [t|] eqn:Hf; [|reflexivity].
    destruct (String.eqb_spec (Task.user_id t) uid) as [Ho|Ho]; [|reflexivity].
    simpl. apply others_delete_where.
    intros r Hr Hsel.
    now rewrite (find_task_the_only u t r (tasks w) Hnd Hf Hr Hsel).
  - unfold bind, get_tasks. cbv beta iota zeta.
    destruct (same_title_oldest_first (Some uid) (Py.or_else task_title "")
                (tasks w)) as [|a [|b l]]; try reflexivity.
    simpl. apply others_delete_where.
    intros r _ Hsel. now apply matching_owner in Hsel.
Qed.

Lemma spares_update_task E uid current_title new_title description priority
    status due_date tags :
  spares_others uid
    (update_task_by_title E (Some uid) current_title new_title description
       priority status due_date tags).
Proof.
  intros w _. unfold update_task_by_title.
  destruct (negb (Py.truthy (Some uid)) || String.eqb current_title "");
    [reflexivity|].
  unfold bind, get_tasks. cbv beta iota zeta.
  destruct (filter (matching (Some uid) current_title) (tasks w))
    as [|task [|b l]] eqn:Hf; try reflexivity.
  simpl. apply others_update_where.
  intros r _ Hsel. split; [now apply matching_owner in Hsel|].
  simpl.
  destruct (apply_patch_frame new_title description priority status due_date
              tags task) as (_ & Hown & _).
  rewrite Hown. apply (matching_owner uid current_title).
  assert (Hin : In task (filter (matching (Some uid) current_title) (tasks w)))
    by (rewrite Hf; now left).
  apply filter_In in Hin. tauto.
Qed.

Lemma spares_delete_all_tasks E uid :
  spares_others uid (delete_all_tasks E (Some uid)).
Proof.
  intros w _. simpl. apply others_delete_where.
  intros r _ H. simpl in H. now apply String.eqb_eq in H.
Qed.

Lemma spares_set_status (uid s message : string) :
  spares_others uid
    (l <- get_tasks ;;
     put_tasks (update_where (owned_by (Some uid)) (Task.set_status s) l) ;;;
     ret (success_result message)).
Proof.
  intros w _. simpl. apply others_update_where.
  intros r _ H. simpl in H. apply String.eqb_eq in H. now split.
Qed.

Lemma spares_after_pure {A B : Type} (uid : string) (m : M A) (k : A -> M B) :
  (forall w, snd (m w) = w) -> (forall a, spares_others uid (k a)) ->
  spares_others uid (bind m k).
Proof.
  intros Hm Hk w Hnd. unfold bind. specialize (Hm w).
  destruct (m w) as [[e|a] w']; simpl in Hm; subst w'.
  - reflexivity.
  - now apply Hk.
Qed.

(** Assigning a key of the arguments: the key then holds the new value,
    whatever it held before, and every other key holds what it held. *)
Lemma kw_get_set (k v : string) (args : kwargs) :
  kw_get k (kw_set k v args) = Some v.
Proof.
  induction args as [|[k' v'] r IH]; cbn [kw_set kw_get].
  - now rewrite String.eqb_refl.
  - destruct (String.eqb k k') eqn:H; cbn [kw_get].
    + now rewrite String.eqb_refl.
    + now rewrite H.
Qed.

Lemma kw_get_set_other (k k' v : string) (args : kwargs) :
  k <> k' -> kw_get k' (kw_set k v args) = kw_get k' args.
Proof.
  intro Hne. induction args as [|[k0 v0] r IH]; cbn [kw_set kw_get].
  - destruct (String.eqb_spec k' k); [congruence|reflexivity].
  - destruct (String.eqb_spec k k0) as [He|He]; cbn [kw_get].
    + subst k0. destruct (String.eqb_spec k' k); [congruence|reflexivity].
    + destruct (String.eqb k' k0); [reflexivity|exact IH].
Qed.

(** Whatever tool the model names and whatever arguments it gives, the
    call, made with the requester's [user_id] put into the arguments as the
    dispatch loop does, adds, changes and deletes no task of any other
    owner (ids being distinct, as a primary key is). *)
Theorem tool_call_spares_other_owners
    (E : Env) (fname uid : string) (args : kwargs) (w : World) :
  NoDup (map Task.id (tasks w)) ->
  others uid (tasks (snd (call_tool E fname (kw_set "user_id" uid args) w))) =
  others uid (tasks w).
Proof.
  intro Hnd.
  revert w Hnd. change (spares_others uid
                          (call_tool E fname (kw_set "user_id" uid args))).
  unfold call_tool. rewrite kw_get_set.
  set (a := kw_set "user_id" uid args).
  assert (Hk : forall f params, forall w, snd (bind_kwargs f params a w) = w).
  { intros f params w. unfold bind_kwargs.
    destruct (find _ a) as [[k v]|]; reflexivity. }
  assert (Hr : forall f k, forall w, snd (required f k a w) = w).
  { intros f k w. unfold required. destruct (kw_get k a); reflexivity. }
  repeat match goal with
         | |- context [if String.eqb fname ?s then _ else _] =>
             destruct (String.eqb fname s)
         end.
  - apply spares_after_pure; [apply Hk|intros _].
    apply spares_after_pure; [apply Hr|intro title].
    apply spares_add_task.
  - apply spares_after_pure; [apply Hk|intros _].
    apply spares_after_pure; [apply Hr|intro title].
    apply spares_update_task.
  - apply spares_after_pure; [apply Hk|intros _]. apply spares_list_tasks.
  - apply spares_after_pure; [apply Hk|intros _]. apply spares_delete_task.
  - apply spares_after_pure; [apply Hk|intros _]. apply spares_delete_all_tasks.
  - apply spares_after_pure; [apply Hk|intros _].
    apply (spares_set_status uid "completed").
  - apply spares_after_pure; [apply Hk|intros _].
    apply (spares_set_status uid "pending").
  - apply spares_after_pure; [apply Hk|intros _]. apply spares_get_analytics.
  - intros w _. reflexivity.
Qed.

Lemma tool_call_spares_other_owners_witness :
  others "8"
    (tasks (snd (call_tool offline_env "delete_all_tasks"
                   (kw_set "user_id" "8" [("user_id", "7")]) milk_world))) =
  tasks milk_world.
Proof.
  rewrite (tool_call_spares_other_owners offline_env "delete_all_tasks" "8"
             [("user_id", "7")] milk_world).
  - reflexivity.
  - vm_compute. repeat constructor; simpl; intuition discriminate.
Defined.

(** ** Adding, then deleting by the id returned *)

(** A task added and then deleted by the id that [add_task] returned
    leaves the task table as it was before the two calls (the id being
    fresh, and printed ids being read back by the UUID parser). *)
Theorem add_then_delete_by_id
    (E : Env) (uid title : string) (description : option string)
    (priority : string) (due_date tags task_title : option string) (w : World) :
  uid <> "" ->
  uuid_str E (uuid4 E (draws w)) <> "" ->
  uuid_parse E (uuid_str E (uuid4 E (draws w))) = Some (uuid4 E (draws w)) ->
  (forall t, In t (tasks w) -> Task.id t <> uuid4 E (draws w)) ->
  exists w1 w2,
    add_task E (Some uid) title description priority due_date tags w =
      (inr [ ("status", JStr "success");
             ("message", JStr ("Task '" ++ title ++ "' added."));
             ("task", JDict [ ("id", JStr (uuid_str E (uuid4 E (draws w))));
                              ("title", JStr title) ]) ], w1)
    /\ delete_task E (Some uid) task_title
         (Some (uuid_str E (uuid4 E (draws w)))) w1 =
      (inr [ ("status", JStr "success");
             ("message", JStr ("Task '" ++ title ++ "' deleted.")) ], w2)
    /\ tasks w2 = tasks w.
Proof.
  intros Hu Hne Hrt Hfresh.
  set (i := uuid4 E (draws w)) in *.
  unfold add_task. rewrite (truthy_Some uid Hu).
  change (negb true) with false. cbv iota.
  unfold bind, fresh_uuid, now, get_tasks, put_tasks, ret. simpl.
  fold i. do 2 eexists. split; [reflexivity|].
  unfold delete_task. rewrite (truthy_Some uid Hu), (truthy_Some _ Hne).
  rewrite andb_false_r. change (negb true) with false. cbv beta iota.
  rewrite (or_else_Some _ "" Hne), Hrt.
  unfold bind, get_tasks. cbv beta iota zeta. simpl tasks.
  set (task := Task.mk i uid title description "pending" priority
                 (parse_due_date due_date) tags (utcnow E (ticks w))
                 (utcnow E (S (ticks w)))).
  assert (Hnone : forall r, In r (tasks w) -> N.eqb (Task.id r) i = false).
  { intros r Hr. apply N.eqb_neq. now apply Hfresh. }
  assert (Hfind : find_task i (tasks w ++ [task]) = Some task).
  { unfold find_task. clear - Hnone.
    induction (tasks w) as [|x l IH]; simpl.
    - now rewrite N.eqb_refl.
    - rewrite (Hnone x (or_introl eq_refl)). apply IH.
      intros r Hr. apply Hnone. now right. }
  cbn [tasks]. rewrite Hfind. cbn [owner_string Task.user_id task].
  rewrite String.eqb_refl. simpl.
  split; [reflexivity|].
  unfold delete_where. rewrite filter_app. simpl. rewrite N.eqb_refl. simpl.
  rewrite app_nil_r. now apply delete_where_none.
Qed.

Lemma add_then_delete_by_id_witness :
  exists w1 w2,
    add_task offline_env (Some "7") "Pay rent" None "high" None None milk_world =
      (inr [ ("status", JStr "success");
             ("message", JStr "Task 'Pay rent' added.");
             ("task", JDict [ ("id", JStr "4"); ("title", JStr "Pay rent") ]) ],
       w1)
    /\ delete_task offline_env (Some "7") None (Some "4") w1 =
      (inr [ ("status", JStr "success");
             ("message", JStr "Task 'Pay rent' deleted.") ], w2)
    /\ tasks w2 = tasks milk_world.
Proof.
  apply (add_then_delete_by_id offline_env "7" "Pay rent" None "high" None None
           None milk_world).
  - discriminate.
  - discriminate.
  - reflexivity.
  - intros t Ht. vm_compute in Ht.
    destruct Ht as [<-|[<-|[<-|[]]]]; discriminate.
Defined.

(** * Further properties of the dispatch loop *)

(** ** One tool call *)

(** The tool names the dispatch chain knows. *)
Definition known_tools : list string :=
  [ "add_task"; "update_task"; "list_tasks"; "delete_task"; "delete_all_tasks";
    "complete_all_tasks"; "mark_all_tasks_incomplete"; "get_analytics" ].

(** The parameters of the function a tool name is dispatched to. *)
Definition declared_parameters (fname : string) : list string :=
  if String.eqb fname "add_task" then
    ["user_id"; "title"; "description"; "priority"; "due_date"; "tags"]
  else if String.eqb fname "update_task" then
    ["user_id"; "current_title"; "new_title"; "description"; "priority";
     "status"; "due_date"; "tags"]
  else if String.eqb fname "list_tasks" then ["user_id"; "status"]
  else if String.eqb fname "delete_task" then ["user_id"; "task_title"; "task_id"]
  else ["user_id"].

(** A tool name outside the catalogue raises nothing and touches nothing:
    the call answers with status error, naming the tool. *)
Theorem call_tool_unknown_name
    (E : Env) (fname : string) (args : kwargs) (w : World) :
  ~ In fname known_tools ->
  call_tool E fname args w =
  (inr [ ("status", JStr "error");
         ("message", JStr ("Tool " ++ fname ++ " not found")) ], w).
Proof.
  intro Hn. unfold call_tool.
  repeat match goal with
         | |- context [if String.eqb fname ?s then _ else _] =>
             destruct (String.eqb_spec fname s) as [He|_];
               [exfalso; apply Hn; rewrite He; unfold known_tools; simpl; tauto|]
         end.
  reflexivity.
Qed.

Lemma call_tool_unknown_name_witness :
  call_tool offline_env "drop_database" [("user_id", "7")] milk_world =
  (inr [ ("status", JStr "error");
         ("message", JStr "Tool drop_database not found") ], milk_world).
Proof.
  apply (call_tool_unknown_name offline_env "drop_database").
  unfold known_tools. simpl. intuition discriminate.
Defined.

(** A call of a known tool with an argument the function behind it does
    not declare raises [TypeError] before the tool runs: the world is as it
    was. *)
Theorem call_tool_undeclared_argument
    (E : Env) (fname k v : string) (args : kwargs) (w : World) :
  In fname known_tools -> In (k, v) args ->
  ~ In k (declared_parameters fname) ->
  exists message, call_tool E fname args w = (inl (TypeError message), w).
Proof.
  intros Hf Hin Hk.
  assert (Hfind : forall params,
             (forall x, In x (declared_parameters fname) <-> In x params) ->
             exists k' v',
               find (fun kv => negb (existsb (String.eqb (fst kv)) params)) args
               = Some (k', v')).
  { intros params Hp.
    destruct (find (fun kv => negb (existsb (String.eqb (fst kv)) params)) args)
      as [[k' v']|] eqn:Hfd; [now exists k', v'|].
    exfalso. pose proof (find_none _ _ Hfd _ Hin) as Hnone. simpl in Hnone.
    apply negb_false_iff, existsb_exists in Hnone.
    destruct Hnone as (x & Hx & Heq). apply String.eqb_eq in Heq. subst x.
    apply Hk, Hp, Hx. }
  unfold known_tools in Hf. simpl in Hf.
  destruct Hf as [<-|[<-|[<-|[<-|[<-|[<-|[<-|[<-|[]]]]]]]]];
    unfold call_tool; simpl String.eqb; cbv iota;
    unfold bind at 1, bind_kwargs;
    match goal with
    | |- context [find (fun kv => negb (existsb (String.eqb (fst kv)) ?p)) args] =>
        destruct (Hfind p) as (k' & v' & Hfd); [intro x; reflexivity|rewrite Hfd]
    end;
    eexists; reflexivity.
Qed.

Lemma call_tool_undeclared_argument_witness :
  exists message,
    call_tool offline_env "delete_all_tasks"
      [("user_id", "7"); ("confirm", "yes")] milk_world =
    (inl (TypeError message), milk_world).
Proof.
  apply (call_tool_undeclared_argument offline_env "delete_all_tasks"
           "confirm" "yes").
  - unfold known_tools. simpl. tauto.
  - simpl. tauto.
  - simpl. intuition discriminate.
Defined.

(** The owner put into the arguments replaces whatever owner the model
    wrote there, and changes no other argument. *)
Lemma injected_user_id_overrides
    (uid forged k : string) (args : kwargs) :
  kw_get "user_id" (kw_set "user_id" uid args) = Some uid
  /\ kw_set "user_id" uid (kw_set "user_id" forged args) =
     kw_set "user_id" uid args
  /\ (k <> "user_id" ->
      kw_get k (kw_set "user_id" uid args) = kw_get k args).
Proof.
  split; [apply kw_get_set|]. split.
  - induction args as [|[k0 v0] r IH]; cbn [kw_set].
    + now rewrite String.eqb_refl.
    + destruct (String.eqb "user_id" k0) eqn:H; cbn [kw_set].
      * now rewrite String.eqb_refl.
      * rewrite H. now rewrite IH.
  - intro Hne. apply kw_get_set_other. congruence.
Qed.

(** ** The loop over the tool calls *)

(** Running a list of tool calls is running its first part and then, on
    the transcript and the world that leaves, the rest: calls take effect
    in the order given, and a call that raises leaves the effects of the
    calls before it in place. *)
Theorem run_tool_calls_app
    (E : Env) (uid : string) (calls1 calls2 : list ToolCall)
    (messages : list TranscriptMsg) (w : World) :
  run_tool_calls E uid (calls1 ++ calls2) messages w =
  bind (run_tool_calls E uid calls1 messages)
       (fun messages1 => run_tool_calls E uid calls2 messages1) w.
Proof.
  revert messages w. induction calls1 as [|c r IH]; intros messages w.
  - reflexivity.
  - simpl. unfold bind in *.
    destruct (lift (json_loads E (function_arguments c)) w) as [[e|a] w1];
      [reflexivity|].
    destruct (call_tool E (function_name c) (kw_set "user_id" uid a) w1)
      as [[e|res] w2]; [reflexivity|].
    apply IH.
Qed.

(** When every call of the list returns, the transcript grows by one tool
    message per call, in the order of the calls, each under the id of its
    call. *)
Theorem run_tool_calls_transcript
    (E : Env) (uid : string) (calls : list ToolCall)
    (messages messages' : list TranscriptMsg) (w w' : World) :
  run_tool_calls E uid calls messages w = (inr messages', w') ->
  exists results,
    List.length results = List.length calls
    /\ messages' =
       (messages ++
        map (fun cr => ToolMsg (call_id (fst cr)) (snd cr))
            (combine calls results))%list.
Proof.
  revert messages w. induction calls as [|c r IH]; intros messages w H.
  - inversion H; subst. exists []. split; [reflexivity|].
    simpl. now rewrite app_nil_r.
  - simpl in H. unfold bind in H.
    destruct (lift (json_loads E (function_arguments c)) w) as [[e|a] w1];
      [discriminate|].
    destruct (call_tool E (function_name c) (kw_set "user_id" uid a) w1)
      as [[e|res] w2]; [discriminate|].
    destruct (IH _ _ H) as (results & Hlen & Hm).
    exists (res :: results). split; [simpl; now rewrite Hlen|].
    rewrite Hm, <- app_assoc. reflexivity.
Qed.

Lemma run_tool_calls_transcript_witness :
  exists results,
    List.length results = 2
    /\ fst (run_tool_calls offline_env "7"
              [ mk_ToolCall "call_1" "list_tasks" "status=pending";
                mk_ToolCall "call_2" "get_analytics" "{}" ] [] milk_world) =
       inr (map (fun cr => ToolMsg (call_id (fst cr)) (snd cr))
              (combine [ mk_ToolCall "call_1" "list_tasks" "status=pending";
                         mk_ToolCall "call_2" "get_analytics" "{}" ] results)).
Proof.
  destruct (run_tool_calls offline_env "7"
              [ mk_ToolCall "call_1" "list_tasks" "status=pending";
                mk_ToolCall "call_2" "get_analytics" "{}" ] [] milk_world)
    as [[e|ms] w'] eqn:Hrun.
  - vm_compute in Hrun. discriminate.
  - destruct (run_tool_calls_transcript offline_env "7" _ [] ms milk_world w' Hrun)
      as (results & Hlen & Hm).
    exists results. split; [exact Hlen|]. simpl. now rewrite Hm.
Defined.

(** ** The history sent to the model *)

Lemma StronglySorted_firstn {A : Type} (R : A -> A -> Prop) (n : nat)
    (l : list A) :
  StronglySorted R l -> StronglySorted R (firstn n l).
Proof.
  revert n. induction l as [|x l IH]; intros [|n] Hs; simpl; try constructor.
  - inversion Hs; subst. now apply IH.
  - inversion Hs as [|? ? _ Hall]; subst.
    rewrite Forall_forall in *. intros y Hy. apply Hall.
    rewrite <- (firstn_skipn n l). apply in_or_app. now left.
Qed.

Lemma StronglySorted_snoc {A : Type} (R : A -> A -> Prop) (l : list A) (x : A) :
  StronglySorted R l -> Forall (fun y => R y x) l ->
  StronglySorted R (l ++ [x]).
Proof.
  induction l as [|y l IH]; simpl; intros Hs Hall.
  - constructor; constructor.
  - inversion Hs as [|? ? Hs' Hy]; subst.
    inversion Hall as [|? ? Hyx Hall']; subst.
    constructor; [now apply IH|].
    apply Forall_app. split; [exact Hy|now constructor].
Qed.

Lemma StronglySorted_rev {A : Type} (R : A -> A -> Prop) (l : list A) :
  StronglySorted R l -> StronglySorted (fun a b => R b a) (rev l).
Proof.
  induction l as [|x l IH]; simpl; intro Hs; [constructor|].
  inversion Hs as [|? ? Hs' Hx]; subst.
  apply StronglySorted_snoc; [now apply IH|].
  rewrite Forall_forall in *. intros y Hy. apply Hx. now apply in_rev.
Qed.

Lemma StronglySorted_filter {A : Type} (R : A -> A -> Prop) (f : A -> bool)
    (l : list A) :
  StronglySorted R l -> StronglySorted R (filter f l).
Proof.
  induction l as [|x l IH]; simpl; intro Hs; [constructor|].
  inversion Hs as [|? ? Hs' Hx]; subst.
  destruct (f x); [|now apply IH].
  constructor; [now apply IH|].
  rewrite Forall_forall in *. intros y Hy. apply Hx.
  apply filter_In in Hy. tauto.
Qed.

(** The history given to the model holds at most ten stored messages, all
    of the turn's conversation and all of role user or assistant, from the
    oldest to the newest. *)
Theorem load_history_recent_chronological
    (conv_id : UUID) (l : list ChatMessage.t) :
  exists hs,
    load_history conv_id l =
      map (fun h => HistoryMsg (ChatMessage.role h) (ChatMessage.content h)) hs
    /\ List.length hs <= 10
    /\ (forall h, In h hs ->
          In h l /\ ChatMessage.conversation_id h = conv_id
          /\ (ChatMessage.role h = "user" \/ ChatMessage.role h = "assistant"))
    /\ StronglySorted
         (fun a b => Datetime.leb (ChatMessage.timestamp a)
                                  (ChatMessage.timestamp b) = true) hs.
Proof.
  unfold load_history.
  set (conv := filter (fun m => N.eqb (ChatMessage.conversation_id m) conv_id) l).
  set (newest := firstn 10 (sort_by timestamp_ge conv)).
  exists (filter (fun h => is_dialogue_role (ChatMessage.role h)) (rev newest)).
  split; [reflexivity|]. split; [|split].
  - eapply Nat.le_trans; [apply filter_length_le|].
    rewrite length_rev. apply firstn_le_length.
  - intros h Hh. apply filter_In in Hh. destruct Hh as [Hh Hrole].
    apply in_rev in Hh.
    assert (Hs : In h (sort_by timestamp_ge conv)).
    { rewrite <- (firstn_skipn 10 (sort_by timestamp_ge conv)).
      apply in_or_app. now left. }
    apply sort_by_In in Hs. apply filter_In in Hs. destruct Hs as [Hl Hc].
    split; [exact Hl|]. split; [now apply N.eqb_eq|].
    unfold is_dialogue_role in Hrole. apply orb_true_iff in Hrole.
    destruct Hrole as [Hr|Hr]; apply String.eqb_eq in Hr; tauto.
  - apply StronglySorted_filter.
    apply (StronglySorted_rev
             (fun a b => Datetime.leb (ChatMessage.timestamp b)
                                      (ChatMessage.timestamp a) = true)).
    apply StronglySorted_firstn.
    apply (sort_by_sorted timestamp_ge).
    + intros a b. apply lex_leb_total.
    + intros a b c Hab Hbc. unfold timestamp_ge in *.
      eapply lex_leb_trans; eassumption.
Qed.

(** ** The title of a new conversation *)

Lemma length_append (a b : string) :
  String.length (a ++ b) = String.length a + String.length b.
Proof. induction a as [|c a IH]; simpl; [reflexivity|now rewrite IH]. Qed.

Lemma length_prefix (n : nat) (s : string) :
  n <= String.length s -> String.length (Py.prefix n s) = n.
Proof.
  unfold Py.prefix. revert s.
  induction n as [|n IH]; intros [|c s] H; simpl in *; try lia;
    try reflexivity.
  rewrite IH; lia.
Qed.

(** The title of a new conversation is never empty and never longer than
    33 characters: a message of up to 30 characters is its own title (or
    "New Chat" when empty), a longer one gives its first 30 characters and
    three dots. *)
Theorem conversation_title_bounded (message : string) :
  conversation_title message <> ""
  /\ String.length (conversation_title message) <= 33
  /\ (message = "" -> conversation_title message = "New Chat")
  /\ (message <> "" -> String.length message <= 30 ->
      conversation_title message = message)
  /\ (30 < String.length message ->
      conversation_title message = Py.prefix 30 message ++ "..."
      /\ String.length (conversation_title message) = 33).
Proof.
  unfold conversation_title.
  destruct (30 <? String.length message) eqn:Hlen.
  - apply Nat.ltb_lt in Hlen.
    assert (Hp : String.length (Py.prefix 30 message ++ "...") = 33).
    { rewrite length_append, length_prefix by lia. reflexivity. }
    assert (Hne : Py.prefix 30 message ++ "..." <> "").
    { intro He. rewrite He in Hp. discriminate. }
    rewrite (or_else_Some _ _ Hne).
    repeat split; intros; subst; simpl in *; try assumption; try lia.
  - apply Nat.ltb_ge in Hlen.
    destruct (String.eqb_spec message "") as [He|Hne].
    + subst message.
      repeat split; intros; simpl in *; try discriminate; try reflexivity;
        try lia; try contradiction.
    + rewrite (or_else_Some _ _ Hne).
      repeat split; intros; try assumption; try lia; try contradiction;
        try reflexivity.
Qed.

(** ** A whole turn *)

(** The run of an accepted request, step by step. *)
Lemma chat_endpoint_steps (E : Env) (request : ChatRequest.t)
    (user_uuid : UUID) (w : World) :
  ChatRequest.user_id request <> "" ->
  uuid_parse E (ChatRequest.user_id request) = Some user_uuid ->
  exists conv_id messages w1 final_resp executed w2 resp w3,
    begin_turn E request user_uuid w = (inr (conv_id, messages), w1)
    /\ try_except (model_turn E (ChatRequest.user_id request) messages)
         fallback w1 = (inr (final_resp, executed), w2)
    /\ end_turn E request conv_id (final_resp, executed) w2 = (inr resp, w3)
    /\ chat_endpoint E request w = (inr resp, w3)
    /\ tasks w1 = tasks w /\ tasks w3 = tasks w2
    /\ ChatResponse.response resp = Py.or_else final_resp "Done."
    /\ ChatResponse.tool_calls_executed resp = executed
    /\ exists m, chat_messages w3 = (chat_messages w2 ++ [m])%list
                 /\ ChatMessage.content m = Py.or_else final_resp "Processed.".
Proof.
  intros Hu Hp.
  destruct (begin_turn_writes_user E request user_uuid w)
    as (conv_id & messages & w1 & mu & Hb & _ & _ & _ & _ & Ht1 & _).
  destruct (guarded_model_turn E (ChatRequest.user_id request) messages w1)
    as ([final_resp executed] & w2 & Ht & _).
  exists conv_id, messages, w1, final_resp, executed, w2.
  unfold chat_endpoint.
  destruct (String.eqb_spec (ChatRequest.user_id request) ""); [contradiction|].
  rewrite Hp. unfold bind at 1. rewrite Hb. unfold bind at 1. rewrite Ht.
  unfold end_turn, save_message, bind, now, fresh_uuid, insert_chat_message, ret.
  simpl. do 2 eexists. repeat split; try reflexivity; try assumption.
  eexists. split; reflexivity.
Qed.

(** [chat_endpoint] fails exactly when the [user_id] is empty or no UUID;
    it then answers 400 and has written nothing. *)
Theorem chat_endpoint_rejects_exactly_bad_user_ids
    (E : Env) (request : ChatRequest.t) (w : World) :
  ((exists e w', chat_endpoint E request w = (inl e, w')) <->
   (ChatRequest.user_id request = ""
    \/ uuid_parse E (ChatRequest.user_id request) = None))
  /\ (forall e w', chat_endpoint E request w = (inl e, w') ->
        w' = w /\ exists detail, e = HTTPException 400 detail).
Proof.
  assert (Hcases :
    (ChatRequest.user_id request = ""
     \/ uuid_parse E (ChatRequest.user_id request) = None) ->
    exists detail, chat_endpoint E request w = (inl (HTTPException 400 detail), w)).
  { intro H. unfold chat_endpoint.
    destruct (String.eqb_spec (ChatRequest.user_id request) "") as [He|Hne].
    - eexists. reflexivity.
    - destruct H as [H|H]; [contradiction|]. rewrite H. eexists. reflexivity. }
  assert (Hok :
    forall e w', chat_endpoint E request w = (inl e, w') ->
    ChatRequest.user_id request = ""
    \/ uuid_parse E (ChatRequest.user_id request) = None).
  { intros e w' H.
    destruct (String.eqb_spec (ChatRequest.user_id request) "") as [He|Hne];
      [now left|].
    destruct (uuid_parse E (ChatRequest.user_id request)) as [u|] eqn:Hp;
      [|now right].
    destruct (chat_endpoint_steps E request u w Hne Hp)
      as (? & ? & ? & ? & ? & ? & resp & w3 & _ & _ & _ & Hrun & _).
    rewrite Hrun in H. discriminate. }
  split; [split|].
  - intros (e & w' & H). eapply Hok, H.
  - intro H. destruct (Hcases H) as (d & Hd). eauto.
  - intros e w' H. destruct (Hcases (Hok e w' H)) as (d & Hd).
    rewrite Hd in H. inversion H; subst. split; [reflexivity|now exists d].
Qed.

Lemma or_else_nonempty (x : option string) (d : string) :
  d <> "" -> Py.or_else x d <> "".
Proof.
  intro Hd. unfold Py.or_else. destruct (Py.truthy x) eqn:Hx; [|exact Hd].
  destruct x as [s|]; [|exact Hd].
  unfold Py.truthy in Hx. destruct (String.eqb_spec s ""); [discriminate|assumption].
Qed.

(** An accepted request always gets a reply with text in it: neither the
    response nor the stored assistant message is ever empty, whatever the
    model returned. *)
Theorem chat_reply_never_empty
    (E : Env) (request : ChatRequest.t) (user_uuid : UUID) (w : World) :
  ChatRequest.user_id request <> "" ->
  uuid_parse E (ChatRequest.user_id request) = Some user_uuid ->
  exists resp w' m,
    chat_endpoint E request w = (inr resp, w')
    /\ ChatResponse.response resp <> ""
    /\ last (chat_messages w') m = m
    /\ In m (chat_messages w')
    /\ ChatMessage.role m = "assistant"
    /\ ChatMessage.content m <> "".
Proof.
  intros Hu Hp.
  destruct (chat_endpoint_steps E request user_uuid w Hu Hp)
    as (conv_id & messages & w1 & final_resp & executed & w2 & resp & w3 &
        _ & _ & He & Hrun & _ & _ & Hresp & _ & _).
  destruct (end_turn_writes_assistant E request conv_id final_resp executed w2)
    as (w3' & m & He' & Hm & _ & Hrole & Hc & _).
  rewrite He in He'. inversion He'; subst w3'.
  exists resp, w3, m. split; [exact Hrun|]. split.
  { rewrite Hresp. apply or_else_nonempty. discriminate. }
  rewrite Hm. split; [apply last_last|]. split.
  { apply in_or_app. right. now left. }
  split; [exact Hrole|].
  rewrite Hc. apply or_else_nonempty. discriminate.
Qed.

Lemma chat_reply_never_empty_witness :
  exists resp w',
    chat_endpoint
      (sample_env (fun _ => inr (mk_AiMessage (Some "") []))
                  (fun _ => inr None))
      (ChatRequest.mk "hello" "7" None) empty_world = (inr resp, w')
    /\ ChatResponse.response resp <> "".
Proof.
  destruct (chat_reply_never_empty
              (sample_env (fun _ => inr (mk_AiMessage (Some "") []))
                          (fun _ => inr None))
              (ChatRequest.mk "hello" "7" None) 7%N empty_world)
    as (resp & w' & m & H & Hr & _).
  - discriminate.
  - reflexivity.
  - exists resp, w'. split; assumption.
Defined.

(** When the model answers without asking for a tool, the turn leaves the
    task table as it was, reports no tool call, and replies with the
    model's text, or with "Okay." when that text is missing or empty. *)
Theorem chat_turn_without_tool_calls
    (E : Env) (request : ChatRequest.t) (user_uuid : UUID) (w : World) :
  ChatRequest.user_id request <> "" ->
  uuid_parse E (ChatRequest.user_id request) = Some user_uuid ->
  (forall messages, exists content,
      create_with_tools E messages = inr (mk_AiMessage content [])) ->
  exists resp w' content,
    chat_endpoint E request w = (inr resp, w')
    /\ tasks w' = tasks w
    /\ ChatResponse.tool_calls_executed resp = false
    /\ ChatResponse.response resp = Py.or_else content "Okay.".
Proof.
  intros Hu Hp Hmodel.
  destruct (chat_endpoint_steps E request user_uuid w Hu Hp)
    as (conv_id & messages & w1 & final_resp & executed & w2 & resp & w3 &
        _ & Ht & _ & Hrun & Ht1 & Ht3 & Hresp & Hexec & _).
  destruct (Hmodel messages) as (content & Hc).
  unfold try_except, model_turn, bind, lift in Ht. rewrite Hc in Ht.
  simpl in Ht. inversion Ht as [[Hf Hx Hw]].
  rewrite <- Hx in Hexec. rewrite <- Hf in Hresp. rewrite <- Hw in Ht3.
  exists resp, w3, content. split; [exact Hrun|].
  split; [congruence|]. split; [exact Hexec|].
  rewrite Hresp. unfold Py.or_else at 1.
  rewrite (truthy_Some _ (or_else_nonempty content "Okay." ltac:(discriminate))).
  reflexivity.
Qed.

Lemma chat_turn_without_tool_calls_witness :
  exists resp w',
    chat_endpoint
      (sample_env (fun _ => inr (mk_AiMessage None []))
                  (fun _ => inr None))
      (ChatRequest.mk "hello" "7" None) milk_world = (inr resp, w')
    /\ tasks w' = tasks milk_world
    /\ ChatResponse.response resp = "Okay.".
Proof.
  destruct (chat_turn_without_tool_calls
              (sample_env (fun _ => inr (mk_AiMessage None []))
                          (fun _ => inr None))
              (ChatRequest.mk "hello" "7" None) 7%N milk_world)
    as (resp & w' & content & H & Ht & _ & Hr).
  - discriminate.
  - reflexivity.
  - intro messages. exists None. reflexivity.
  - exists resp, w'. split; [exact H|]. split; [exact Ht|].
    vm_compute in H. inversion H; subst. reflexivity.
Defined.

(** * Properties of the conversation endpoints *)

Lemma find_conversation_id (i : UUID) (c : Conversation.t)
    (l : list Conversation.t) :
  find_conversation i l = Some c -> Conversation.id c = i /\ In c l.
Proof.
  unfold find_conversation. intro H. apply find_some in H.
  destruct H as [Hin Hid]. apply N.eqb_eq in Hid. now split.
Qed.

Lemma owned_conversation_refuses
    (E : Env) (conversation_id user_id : string) (u cv : UUID) (w : World) :
  user_id <> "" ->
  uuid_parse E user_id = Some u -> uuid_parse E conversation_id = Some cv ->
  (forall c, find_conversation cv (conversations w) = Some c ->
             uuid_str E (Conversation.user_id c) <> user_id) ->
  owned_conversation E conversation_id user_id w =
  (inl (HTTPException 404 "Not found"), w).
Proof.
  intros Hu Hpu Hpc Hforeign. unfold owned_conversation.
  destruct (String.eqb_spec user_id ""); [contradiction|].
  rewrite Hpu, Hpc. unfold bind, get_conversations. cbv beta iota zeta.
  destruct (find_conversation cv (conversations w)) as [c|] eqn:Hf;
    [|reflexivity].
  specialize (Hforeign c eq_refl).
  destruct (String.eqb_spec (uuid_str E (Conversation.user_id c)) user_id);
    [contradiction|reflexivity].
Qed.

(** A conversation that is not stored, or whose owner does not print as
    the [user_id] of the request, is neither shown nor deleted: both
    endpoints answer 404 and leave the world as it was. *)
Theorem conversation_endpoints_refuse_strangers
    (E : Env) (conversation_id user_id : string) (u cv : UUID) (w : World) :
  user_id <> "" ->
  uuid_parse E user_id = Some u -> uuid_parse E conversation_id = Some cv ->
  (forall c, find_conversation cv (conversations w) = Some c ->
             uuid_str E (Conversation.user_id c) <> user_id) ->
  get_conversation_detail E conversation_id user_id w =
    (inl (HTTPException 404 "Not found"), w)
  /\ delete_conversation E conversation_id user_id w =
    (inl (HTTPException 404 "Not found"), w).
Proof.
  intros Hu Hpu Hpc Hforeign.
  pose proof (owned_conversation_refuses E conversation_id user_id u cv w
                Hu Hpu Hpc Hforeign) as Hown.
  unfold get_conversation_detail, delete_conversation, bind.
  rewrite Hown. split; reflexivity.
Qed.

Lemma conversation_endpoints_refuse_strangers_witness :
  delete_conversation offline_env "1" "8" one_conversation_world =
  (inl (HTTPException 404 "Not found"), one_conversation_world).
Proof.
  apply (conversation_endpoints_refuse_strangers offline_env "1" "8" 8%N 1%N
           one_conversation_world).
  - discriminate.
  - reflexivity.
  - reflexivity.
  - intros c Hc. vm_compute in Hc. inversion Hc; subst. discriminate.
Defined.

(** [delete_conversation] by its owner removes the conversation and all
    its messages and nothing else: the messages of other conversations and
    the tasks stay, and asking for the conversation afterwards gives 404. *)
Theorem delete_conversation_removes_it
    (E : Env) (conversation_id user_id : string) (u cv : UUID)
    (c : Conversation.t) (w : World) :
  user_id <> "" ->
  uuid_parse E user_id = Some u -> uuid_parse E conversation_id = Some cv ->
  find_conversation cv (conversations w) = Some c ->
  uuid_str E (Conversation.user_id c) = user_id ->
  exists w',
    delete_conversation E conversation_id user_id w =
      (inr [ ("message", JStr "Deleted") ], w')
    /\ conversations w' =
       filter (fun x => negb (N.eqb (Conversation.id x) cv)) (conversations w)
    /\ chat_messages w' =
       filter (fun m => negb (N.eqb (ChatMessage.conversation_id m) cv))
              (chat_messages w)
    /\ tasks w' = tasks w
    /\ (forall m, In m (chat_messages w') -> ChatMessage.conversation_id m <> cv)
    /\ (forall m, In m (chat_messages w) ->
                  ChatMessage.conversation_id m <> cv -> In m (chat_messages w'))
    /\ get_conversation_detail E conversation_id user_id w' =
       (inl (HTTPException 404 "Not found"), w').
Proof.
  intros Hu Hpu Hpc Hf Hown.
  assert (Hoc : owned_conversation E conversation_id user_id w = (inr (cv, c), w)).
  { unfold owned_conversation.
    destruct (String.eqb_spec user_id ""); [contradiction|].
    rewrite Hpu, Hpc. unfold bind, get_conversations. cbv beta iota zeta.
    rewrite Hf, Hown, String.eqb_refl. reflexivity. }
  unfold delete_conversation. unfold bind at 1. rewrite Hoc.
  unfold bind, get_chat_messages, put_chat_messages, get_conversations,
    put_conversations, ret. simpl.
  eexists. split; [reflexivity|]. simpl.
  split; [reflexivity|]. split; [reflexivity|]. split; [reflexivity|].
  split; [|split].
  - intros m Hm. apply filter_In in Hm. destruct Hm as [_ Hm].
    unfold in_conversation in Hm. apply negb_true_iff, N.eqb_neq in Hm. exact Hm.
  - intros m Hm Hne. apply filter_In. split; [exact Hm|].
    unfold in_conversation. apply negb_true_iff, N.eqb_neq. exact Hne.
  - unfold get_conversation_detail, bind at 1.
    rewrite (owned_conversation_refuses E conversation_id user_id u cv);
      try assumption; [reflexivity|].
    intros c' Hf'. exfalso. simpl in Hf'.
    apply find_conversation_id in Hf'. destruct Hf' as [Hid Hin].
    apply filter_In in Hin. destruct Hin as [_ Hin].
    apply negb_true_iff, N.eqb_neq in Hin. contradiction.
Qed.

Lemma delete_conversation_removes_it_witness :
  exists w',
    delete_conversation offline_env "1" "7" one_conversation_world =
      (inr [ ("message", JStr "Deleted") ], w')
    /\ conversations w' = [] /\ chat_messages w' = [].
Proof.
  destruct (delete_conversation_removes_it offline_env "1" "7" 7%N 1%N
              (Conversation.mk 1%N 7%N "hello" (sample_clock 0) (sample_clock 1))
              one_conversation_world)
    as (w' & H & Hc & Hm & _).
  - discriminate.
  - reflexivity.
  - reflexivity.
  - reflexivity.
  - reflexivity.
  - exists w'. split; [exact H|]. rewrite Hc, Hm. split; reflexivity.
Defined.

(** [get_conversation_detail] for the owner reads only, and shows exactly
    the messages of that conversation, each once, from the oldest to the
    newest. *)
Theorem get_conversation_detail_lists_messages
    (E : Env) (conversation_id user_id : string) (u cv : UUID)
    (c : Conversation.t) (w : World) :
  user_id <> "" ->
  uuid_parse E user_id = Some u -> uuid_parse E conversation_id = Some cv ->
  find_conversation cv (conversations w) = Some c ->
  uuid_str E (Conversation.user_id c) = user_id ->
  exists ms,
    get_conversation_detail E conversation_id user_id w =
      (inr (ConversationDetailResponse.mk (uuid_str E cv)
              (Conversation.title c) (Conversation.created_at c)
              (Conversation.updated_at c) (map (message_entry E) ms)), w)
    /\ Permutation ms
         (filter (fun m => N.eqb (ChatMessage.conversation_id m) cv)
                 (chat_messages w))
    /\ StronglySorted
         (fun a b => Datetime.leb (ChatMessage.timestamp a)
                                  (ChatMessage.timestamp b) = true) ms.
Proof.
  intros Hu Hpu Hpc Hf Hown.
  assert (Hoc : owned_conversation E conversation_id user_id w = (inr (cv, c), w)).
  { unfold owned_conversation.
    destruct (String.eqb_spec user_id ""); [contradiction|].
    rewrite Hpu, Hpc. unfold bind, get_conversations. cbv beta iota zeta.
    rewrite Hf, Hown, String.eqb_refl. reflexivity. }
  destruct (find_conversation_id _ _ _ Hf) as [Hid _].
  exists (sort_by timestamp_le (filter (in_conversation cv) (chat_messages w))).
  split; [|split].
  - unfold get_conversation_detail. unfold bind at 1. rewrite Hoc.
    unfold bind, get_chat_messages, ret. simpl. now rewrite Hid.
  - apply Permutation_sym, sort_by_perm.
  - apply (sort_by_sorted timestamp_le).
    + intros a b. apply lex_leb_total.
    + intros a b d. apply lex_leb_trans.
Qed.

Lemma get_conversation_detail_lists_messages_witness :
  exists ms,
    fst (get_conversation_detail offline_env "1" "7" one_conversation_world) =
      inr (ConversationDetailResponse.mk "1" "hello" (sample_clock 0)
             (sample_clock 1) (map (message_entry offline_env) ms))
    /\ List.length ms = 2.
Proof.
  destruct (get_conversation_detail_lists_messages offline_env "1" "7" 7%N 1%N
              (Conversation.mk 1%N 7%N "hello" (sample_clock 0) (sample_clock 1))
              one_conversation_world)
    as (ms & H & Hp & _).
  - discriminate.
  - reflexivity.
  - reflexivity.
  - reflexivity.
  - reflexivity.
  - exists ms. split; [now rewrite H|].
    apply Permutation_length in Hp. rewrite Hp. reflexivity.
Defined.

(** [get_conversations] reads only, and lists exactly the conversations of
    the requesting user, each once, the most recently updated first. *)
Theorem get_conversations_lists_own
    (E : Env) (user_id : string) (u : UUID) (w : World) :
  user_id <> "" -> uuid_parse E user_id = Some u ->
  exists cs,
    get_conversations_endpoint E user_id w = (inr (map (history_entry E) cs), w)
    /\ Permutation cs
         (filter (fun c => N.eqb (Conversation.user_id c) u) (conversations w))
    /\ StronglySorted
         (fun a b => Datetime.leb (Conversation.updated_at b)
                                  (Conversation.updated_at a) = true) cs.
Proof.
  intros Hu Hp.
  exists (sort_by updated_ge
            (filter (fun c => N.eqb (Conversation.user_id c) u) (conversations w))).
  split; [|split].
  - unfold get_conversations_endpoint.
    destruct (String.eqb_spec user_id ""); [contradiction|].
    rewrite Hp. reflexivity.
  - apply Permutation_sym, sort_by_perm.
  - apply (sort_by_sorted updated_ge).
    + intros a b. apply lex_leb_total.
    + intros a b d Hab Hbd. unfold updated_ge in *.
      eapply lex_leb_trans; eassumption.
Qed.

Lemma get_conversations_lists_own_witness :
  exists cs,
    get_conversations_endpoint offline_env "7" one_conversation_world =
      (inr (map (history_entry offline_env) cs), one_conversation_world)
    /\ List.length cs = 1.
Proof.
  destruct (get_conversations_lists_own offline_env "7" 7%N
              one_conversation_world) as (cs & H & Hp & _).
  - discriminate.
  - reflexivity.
  - exists cs. split; [exact H|].
    apply Permutation_length in Hp. rewrite Hp. reflexivity.
Defined.
